(** * Raindrop-Convert-HTML: the CSV-to-bookmarks converter, embedded and verified

    Shallow embedding of [raindrop_convert.py].

    Conventions of the embedding.
    - A Python [str] is a Rocq [string]; the model is exact for ASCII text.
      A character above 127 is carried along unchanged: it has no case and
      is not white space.
    - A pandas cell is an [option string]: [None] is NaN (how the CSV reader
      delivers an empty cell), [Some s] a text cell.
    - A [dict] is an association list in insertion order, which is the order
      Python iterates it in; [sorted] is stable, so that order is visible in
      the rendered document.
    - The wall clock is read through a state monad: the state counts the
      readings made so far and the platform says what each reading returns.
    - Exceptions are values of an error sum; [try]/[except] is a handler. *)

From Stdlib Require Import Strings.String Strings.Ascii Lists.List ZArith.ZArith.
From Stdlib Require Import Numbers.DecimalString Bool.Bool micromega.Lia Arith.PeanoNat.
From Stdlib Require Import Sorting.Permutation Sorting.Sorted.
From Stdlib Require Structures.OrderedTypeEx Numbers.DecimalPos Numbers.DecimalZ.
Import ListNotations.

Local Open Scope string_scope.
Local Open Scope list_scope.

(* ================================================================== *)
(** ** Python string primitives *)
(* ================================================================== *)

Module Py.

(** [str.isspace] on one ASCII character: tab, LF, VT, FF, CR, the four
    separators FS, GS, RS, US and the space. *)
Definition isspace (c : ascii) : bool :=
  let n := nat_of_ascii c in
  ((9 <=? n)%nat && (n <=? 13)%nat) || ((28 <=? n)%nat && (n <=? 32)%nat).

(** [s.lstrip()]. *)
Fixpoint lstrip (s : string) : string :=
  match s with
  | EmptyString => EmptyString
  | String c r => if isspace c then lstrip r else s
  end.

(** [s.rstrip()]: a character is dropped when it is white space and
    everything after it has been dropped. *)
Fixpoint rstrip (s : string) : string :=
  match s with
  | EmptyString => EmptyString
  | String c r =>
      match rstrip r with
      | EmptyString => if isspace c then EmptyString else String c EmptyString
      | r' => String c r'
      end
  end.

(** [s.strip()]. *)
Definition strip (s : string) : string := rstrip (lstrip s).

(** [s.split(sep)] for a one-character separator: always at least one
    piece, [n+1] pieces for [n] separators. *)
Fixpoint split (sep : ascii) (s : string) : list string :=
  match s with
  | EmptyString => [EmptyString]
  | String c r =>
      if Ascii.eqb c sep then EmptyString :: split sep r
      else match split sep r with
           | [] => [String c EmptyString]
           | p :: ps => String c p :: ps
           end
  end.

(** [sep.join(parts)]. *)
Fixpoint join (sep : string) (parts : list string) : string :=
  match parts with
  | [] => EmptyString
  | [p] => p
  | p :: ps => p ++ sep ++ join sep ps
  end.

(** [c.lower()] on one ASCII character. *)
Definition lower_char (c : ascii) : ascii :=
  let n := nat_of_ascii c in
  if ((65 <=? n)%nat && (n <=? 90)%nat) then ascii_of_nat (n + 32) else c.

(** [s.lower()]. *)
Fixpoint lower (s : string) : string :=
  match s with
  | EmptyString => EmptyString
  | String c r => String (lower_char c) (lower r)
  end.

(** [s.replace('Z', '+00:00')]: every occurrence is replaced. *)
Fixpoint replace_Z (s : string) : string :=
  match s with
  | EmptyString => EmptyString
  | String c r =>
      if Ascii.eqb c "Z" then "+00:00" ++ replace_Z r else String c (replace_Z r)
  end.

(** The double quote character and the line feed, and the strings made of
    one of them. *)
Definition dquote : ascii := ascii_of_nat 34.
Definition q : string := String dquote EmptyString.
Definition nl : string := String (ascii_of_nat 10) EmptyString.

(** [html.escape(s)] with its default [quote=True]. *)
Definition escape_char (c : ascii) : string :=
  if Ascii.eqb c "&" then "&amp;"
  else if Ascii.eqb c "<" then "&lt;"
  else if Ascii.eqb c ">" then "&gt;"
  else if Ascii.eqb c dquote then "&quot;"
  else if Ascii.eqb c "'" then "&#x27;"
  else String c EmptyString.

Fixpoint escape (s : string) : string :=
  match s with
  | EmptyString => EmptyString
  | String c r => escape_char c ++ escape r
  end.

(** [str(n)] for an [int]: decimal digits, a leading minus sign when
    negative. *)
Definition str_of_int (n : Z) : string := NilZero.string_of_int (Z.to_int n).

(** [s * n] for a string [s] and a count [n]. *)
Fixpoint repeat_str (s : string) (n : nat) : string :=
  match n with
  | O => EmptyString
  | S k => s ++ repeat_str s k
  end.

(** [pat in s]. *)
Fixpoint contains (pat s : string) : bool :=
  String.prefix pat s ||
  match s with
  | EmptyString => false
  | String _ r => contains pat r
  end.

(** [bool(s)] for a string: false exactly for the empty string. *)
Definition truthy (s : string) : bool :=
  match s with EmptyString => false | _ => true end.

(** A stable sort by a strict order [lt]: every element is put in front of
    the already sorted elements that follow it in the input, behind those
    that are strictly smaller. Elements that compare equal keep the order
    they had in the input. *)
Section StableSort.
Context {A : Type} (lt : A -> A -> bool).

Fixpoint insert_by (x : A) (l : list A) : list A :=
  match l with
  | [] => [x]
  | y :: r => if lt y x then y :: insert_by x r else x :: l
  end.

Fixpoint sort_by (l : list A) : list A :=
  match l with
  | [] => []
  | x :: r => insert_by x (sort_by r)
  end.
End StableSort.

(** [sorted(xs, key=key)] for string keys, compared code point by code
    point. *)
Definition sorted {A : Type} (key : A -> string) (l : list A) : list A :=
  sort_by (fun a b => String.ltb (key a) (key b)) l.

End Py.

(* ================================================================== *)
(** ** The library calls on dates and on the clock *)
(* ================================================================== *)

(** What the run takes from its platform: the readings of the wall clock
    and the local time zone. [now i] is [int(datetime.now().timestamp())]
    at the [i]-th reading of the run (counted from 0); [local_to_epoch s]
    is the epoch second of the local wall-clock time that is [s] seconds
    after 1970-01-01T00:00:00 on the local calendar. *)
Record Platform := mkPlatform {
  now : nat -> Z;
  local_to_epoch : Z -> Z
}.

Module Datetime.

Local Open Scope Z_scope.

(** A [datetime] value; [tzinfo] is the UTC offset in microseconds of an
    aware value, [None] for a naive one. *)
Record datetime := mkDatetime {
  year : Z; month : Z; day : Z;
  hour : Z; minute : Z; second : Z; microsecond : Z;
  tzinfo : option Z
}.

Definition digit (c : ascii) : option Z :=
  let n := nat_of_ascii c in
  if ((48 <=? n)%nat && (n <=? 57)%nat) then Some (Z.of_nat (n - 48)) else None.

(** Exactly [n] decimal digits at the front of [s]: their value (on top of
    the value [acc] read so far) and the rest of the string. *)
Fixpoint digits (n : nat) (acc : Z) (s : string) : option (Z * string) :=
  match n with
  | O => Some (acc, s)
  | S k =>
      match s with
      | EmptyString => None
      | String c r =>
          match digit c with
          | Some d => digits k (10 * acc + d) r
          | None => None
          end
      end
  end.

(** One expected character at the front of [s]. *)
Definition expect (c : ascii) (s : string) : option string :=
  match s with
  | String c' r => if Ascii.eqb c c' then Some r else None
  | EmptyString => None
  end.

(** [.fff] or [.ffffff] up to the end of the string, in microseconds. *)
Definition parse_fraction (s : string) : option Z :=
  match String.length s with
  | 3%nat => match digits 3 0 s with Some (v, _) => Some (v * 1000)%Z | None => None end
  | 6%nat => match digits 6 0 s with Some (v, _) => Some v | None => None end
  | _ => None
  end.

(** [HH[:MM[:SS[.fff[fff]]]]], the whole of [s]. *)
Definition parse_hh_mm_ss_ff (s : string) : option (Z * Z * Z * Z) :=
  match digits 2 0 s with
  | None => None
  | Some (hh, EmptyString) => Some (hh, 0, 0, 0)
  | Some (hh, s1) =>
      match expect ":" s1 with
      | None => None
      | Some s2 =>
          match digits 2 0 s2 with
          | None => None
          | Some (mm, EmptyString) => Some (hh, mm, 0, 0)
          | Some (mm, s3) =>
              match expect ":" s3 with
              | None => None
              | Some s4 =>
                  match digits 2 0 s4 with
                  | None => None
                  | Some (ss, EmptyString) => Some (hh, mm, ss, 0)
                  | Some (ss, s5) =>
                      match expect "." s5 with
                      | None => None
                      | Some s6 =>
                          match parse_fraction s6 with
                          | Some us => Some (hh, mm, ss, us)
                          | None => None
                          end
                      end
                  end
              end
          end
      end
  end%Z.

(** The time string cut at its first sign character: the part before it,
    and the sign with the part after it when there is one. *)
Fixpoint split_at_sign (s : string) : string * option (Z * string) :=
  match s with
  | EmptyString => (EmptyString, None)
  | String c r =>
      if Ascii.eqb c "+" then (EmptyString, Some (1, r))
      else if Ascii.eqb c "-" then (EmptyString, Some (-1, r))
      else let '(t, z) := split_at_sign r in (String c t, z)
  end%Z.

(** The offset [+HH:MM], [+HH:MM:SS] or [+HH:MM:SS.ffffff], in microseconds;
    [timezone] takes an offset strictly between -24 and +24 hours. *)
Definition parse_offset (sign : Z) (s : string) : option Z :=
  match String.length s with
  | 5%nat | 8%nat | 15%nat =>
      match parse_hh_mm_ss_ff s with
      | Some (hh, mm, ss, us) =>
          let off := sign * ((hh * 3600 + mm * 60 + ss) * 1000000 + us) in
          if (-86400000000 <? off) && (off <? 86400000000) then Some off else None
      | None => None
      end
  | _ => None
  end%Z.

Definition is_leap (y : Z) : bool :=
  ((y mod 4 =? 0) && (negb (y mod 100 =? 0) || (y mod 400 =? 0)))%Z.

Definition days_in_month (y m : Z) : Z :=
  (if (m =? 2) then (if is_leap y then 29 else 28)
   else if (m =? 4) || (m =? 6) || (m =? 9) || (m =? 11) then 30 else 31)%Z.

(** The checks of the [datetime] constructor. *)
Definition valid (d : datetime) : bool :=
  ((1 <=? year d) && (year d <=? 9999) &&
   (1 <=? month d) && (month d <=? 12) &&
   (1 <=? day d) && (day d <=? days_in_month (year d) (month d)) &&
   (0 <=? hour d) && (hour d <=? 23) &&
   (0 <=? minute d) && (minute d <=? 59) &&
   (0 <=? second d) && (second d <=? 59) &&
   (0 <=? microsecond d) && (microsecond d <=? 999999))%Z.

(** [datetime.fromisoformat(s)]. This is library code; the model follows
    the format its documentation gives for Python 3.7 to 3.10,
    [YYYY-MM-DD[*HH[:MM[:SS[.fff[fff]]]][+HH:MM[:SS[.ffffff]]]]] with [*]
    any one character and digits only in the number fields. [None] is the
    [ValueError] of a string that does not parse. *)
Definition fromisoformat (s : string) : option datetime :=
  match digits 4 0 s with
  | None => None
  | Some (y, s1) =>
  match expect "-" s1 with
  | None => None
  | Some s2 =>
  match digits 2 0 s2 with
  | None => None
  | Some (m, s3) =>
  match expect "-" s3 with
  | None => None
  | Some s4 =>
  match digits 2 0 s4 with
  | None => None
  | Some (d, s5) =>
      let finish hh mm ss us tz :=
        let dt := mkDatetime y m d hh mm ss us tz in
        if valid dt then Some dt else None in
      match s5 with
      | EmptyString => finish 0 0 0 0 None
      | String _ tstr =>
          let '(timestr, z) := split_at_sign tstr in
          match parse_hh_mm_ss_ff timestr with
          | None => None
          | Some (hh, mm, ss, us) =>
              match z with
              | None => finish hh mm ss us None
              | Some (sign, tzstr) =>
                  match parse_offset sign tzstr with
                  | Some off => finish hh mm ss us (Some off)
                  | None => None
                  end
              end
          end
      end
  end end end end end%Z.

Definition days_before_year (y : Z) : Z :=
  let y1 := y - 1 in (y1 * 365 + y1 / 4 - y1 / 100 + y1 / 400)%Z.

Fixpoint days_before_month_nat (y : Z) (m : nat) : Z :=
  match m with
  | O => 0
  | S k => days_before_month_nat y k + days_in_month y (Z.of_nat (S k))
  end%Z.

(** Days of the year [y] before the first day of month [m]. *)
Definition days_before_month (y m : Z) : Z :=
  days_before_month_nat y (Z.to_nat (m - 1)).

(** [d.toordinal()]: 1 for 0001-01-01. *)
Definition toordinal (d : datetime) : Z :=
  (days_before_year (year d) + days_before_month (year d) (month d) + day d)%Z.

(** Seconds from 1970-01-01T00:00:00 to the wall-clock reading of [d], on
    the calendar of [d]. *)
Definition wall_seconds (d : datetime) : Z :=
  ((toordinal d - 719163) * 86400 + hour d * 3600 + minute d * 60 + second d)%Z.

(** [d.timestamp()], in microseconds. An aware value is moved by its
    offset, a naive one is read in the local zone of the platform. *)
Definition timestamp_us (pf : Platform) (d : datetime) : Z :=
  match tzinfo d with
  | Some off => wall_seconds d * 1000000 + microsecond d - off
  | None => local_to_epoch pf (wall_seconds d) * 1000000 + microsecond d
  end%Z.

(** [int(d.timestamp())]: [int] cuts the fraction off, towards zero.
    ([timestamp] returns a float; the model takes the quotient of the exact
    value, which is what the float gives for every date up to the year
    2242. A naive date that the platform cannot place in its local zone is
    not modelled: [local_to_epoch] is total.) *)
Definition int_timestamp (pf : Platform) (d : datetime) : Z :=
  Z.quot (timestamp_us pf d) 1000000.

End Datetime.

Import Py.

(* ================================================================== *)
(** ** The clock monad *)
(* ================================================================== *)

(** A computation that may read the wall clock: the state is the number of
    readings made so far. *)
Definition Clock (A : Type) : Type := nat -> A * nat.

Definition ret {A : Type} (a : A) : Clock A := fun n => (a, n).

Definition bind {A B : Type} (m : Clock A) (f : A -> Clock B) : Clock B :=
  fun n => let '(a, n') := m n in f a n'.

Notation "x <- m ;; k" := (bind m (fun x => k))
  (at level 100, m at next level, right associativity).

(** [int(datetime.now().timestamp())]. *)
Definition datetime_now (pf : Platform) : Clock Z := fun n => (now pf n, S n).

(* ================================================================== *)
(** ** Record normalizer: [create_bookmark_html] *)
(* ================================================================== *)

(** The entry line of the f-string, from the values put into it. *)
Definition entry_line (href : string) (add_date : Z) (text : string) : string :=
  "<DT><A HREF=" ++ q ++ href ++ q ++ " ADD_DATE=" ++ q ++ str_of_int add_date
    ++ q ++ ">" ++ text ++ "</A>".

(** The value of [add_date]: the parsed time when [created] is a non-empty
    string that parses, a reading of the clock otherwise. *)
Definition add_date_of (pf : Platform) (created : option string) : Clock Z :=
  match created with
  | Some c =>
      if truthy c then
        match Datetime.fromisoformat (replace_Z c) with
        | Some d => ret (Datetime.int_timestamp pf d)
        | None => datetime_now pf
        end
      else datetime_now pf
  | None => datetime_now pf
  end.

Definition create_bookmark_html (pf : Platform) (title url : string)
    (created : option string) : Clock string :=
  add_date <- add_date_of pf created ;;
  ret (entry_line (escape url) add_date (escape title)).

(* ================================================================== *)
(** ** Folder tree builder *)
(* ================================================================== *)

(** [class BookmarkFolder]: [subfolders] is the dict from subfolder name to
    subfolder, in insertion order; [bookmarks] the list of entry lines. *)
#[warnings="-register-all"]
Inductive BookmarkFolder : Type :=
  mkFolder (name : string) (subfolders : list (string * BookmarkFolder))
           (bookmarks : list string).

Definition name (f : BookmarkFolder) : string :=
  match f with mkFolder n _ _ => n end.
Definition subfolders (f : BookmarkFolder) : list (string * BookmarkFolder) :=
  match f with mkFolder _ s _ => s end.
Definition bookmarks (f : BookmarkFolder) : list string :=
  match f with mkFolder _ _ b => b end.

(** [BookmarkFolder(name)]. *)
Definition new_folder (n : string) : BookmarkFolder := mkFolder n [] [].

(** Dict operations on the association list. *)
Section Dict.
Context {V : Type}.

(** [k in d]. *)
Fixpoint dict_mem (k : string) (d : list (string * V)) : bool :=
  match d with
  | [] => false
  | (k', _) :: r => String.eqb k' k || dict_mem k r
  end.

(** [d.get(k)]. *)
Fixpoint dict_get (k : string) (d : list (string * V)) : option V :=
  match d with
  | [] => None
  | (k', v) :: r => if String.eqb k' k then Some v else dict_get k r
  end.

(** [d[k] = v]: the value is replaced where the key is, a new key goes to
    the end. *)
Fixpoint dict_set (k : string) (v : V) (d : list (string * V)) : list (string * V) :=
  match d with
  | [] => [(k, v)]
  | (k', v') :: r =>
      if String.eqb k' k then (k', v) :: r else (k', v') :: dict_set k v r
  end.

(** The object [d[k]] mutated in place by [f]. *)
Fixpoint dict_update (k : string) (f : V -> V) (d : list (string * V)) : list (string * V) :=
  match d with
  | [] => []
  | (k', v) :: r =>
      if String.eqb k' k then (k', f v) :: r else (k', v) :: dict_update k f r
  end.

(** [d.values()]. *)
Definition dict_values (d : list (string * V)) : list V := map snd d.
End Dict.

(** The walk of [add_to_folder_structure] along the folder names, from the
    folder [current]: a missing subfolder is created, the walk goes on
    inside the subfolder, and the bookmark is appended where the walk
    ends. The folders on the way are mutated in place; here each is
    rebuilt around its changed subfolder. *)
Fixpoint add_path (folders : list string) (bookmark_html : string)
    (current : BookmarkFolder) : BookmarkFolder :=
  match folders with
  | [] =>
      mkFolder (name current) (subfolders current)
               (bookmarks current ++ [bookmark_html])
  | folder_name :: rest =>
      let subs :=
        if negb (dict_mem folder_name (subfolders current))
        then dict_set folder_name (new_folder folder_name) (subfolders current)
        else subfolders current in
      mkFolder (name current)
               (dict_update folder_name (add_path rest bookmark_html) subs)
               (bookmarks current)
  end.

(** The folder names a folder cell stands for: none for a NaN or empty
    cell, the trimmed pieces between slashes otherwise. *)
Definition folders_of (folder_path : option string) : list string :=
  match folder_path with
  | Some p => if truthy p then map strip (split "/" p) else []
  | None => []
  end.

Definition add_to_folder_structure (root : BookmarkFolder)
    (folder_path : option string) (bookmark_html : string) : BookmarkFolder :=
  add_path (folders_of folder_path) bookmark_html root.

(** One row of the data frame: the four columns the converter reads. *)
Record Row := mkRow {
  title : option string;
  url : string;
  folder : option string;
  created : option string
}.

(** The order of [sort_values('folder', na_position='last')] on two cells:
    text before NaN, text by code points. *)
Definition cell_ltb (a b : option string) : bool :=
  match a, b with
  | Some x, Some y => String.ltb x y
  | Some _, None => true
  | None, _ => false
  end.

(** [df.sort_values('folder', na_position='last')]. The model is a stable
    sort: rows with equal cells keep their order. (pandas sorts with
    quicksort unless told otherwise, which keeps that order in a short
    table and does not promise it in a long one; where the order among
    equal cells matters below, it is said so.) *)
Definition sort_values_folder (rows : list Row) : list Row :=
  sort_by (fun a b => cell_ltb (folder a) (folder b)) rows.

(** The title handed to [create_bookmark_html]: the cell, the url when the
    cell is NaN. *)
Definition title_or_url (row : Row) : string :=
  match title row with
  | Some t => t
  | None => url row
  end.

(** The body of the loop over the rows, from the tree built so far. *)
Fixpoint add_rows (pf : Platform) (rows : list Row) (root : BookmarkFolder)
    : Clock BookmarkFolder :=
  match rows with
  | [] => ret root
  | row :: rest =>
      bookmark_html <-
        create_bookmark_html pf (title_or_url row) (url row) (created row) ;;
      add_rows pf rest (add_to_folder_structure root (folder row) bookmark_html)
  end.

Definition create_folder_structure (pf : Platform) (bookmarks_df : list Row)
    : Clock BookmarkFolder :=
  let root := new_folder "root" in
  let bookmarks_df := sort_values_folder bookmarks_df in
  add_rows pf bookmarks_df root.

(* ================================================================== *)
(** ** Tree renderer *)
(* ================================================================== *)

Definition indent_of (level : nat) : string := repeat_str "    " level.

(** [generate_folder_html]. The subfolders are rendered first and the
    rendered blocks are then put in the order of [sorted], which looks at
    the lower-cased names only; [generate_folder_html_eq] below gives the
    equation in the order the source has it. *)
Fixpoint generate_folder_html (folder : BookmarkFolder) (level : nat) : list string :=
  match folder with
  | mkFolder fname subs marks =>
      let is_root := String.eqb fname "root" in
      let indent := indent_of level in
      let header :=
        if is_root then []
        else [(indent ++ "<DT><H3>" ++ escape fname ++ "</H3>")%string;
              (indent ++ "<DL><p>")%string] in
      let level := if is_root then level else S level in
      let indent := indent_of level in
      let blocks :=
        map (fun kv : string * BookmarkFolder =>
               (lower (name (snd kv)), generate_folder_html (snd kv) level)) subs in
      let closing :=
        if is_root then [] else [(indent_of (level - 1) ++ "</DL><p>")%string] in
      header
        ++ map (fun bookmark => (indent ++ bookmark)%string) marks
        ++ concat (map snd (sorted fst blocks))
        ++ closing
  end.

Definition header : string :=
  "<!DOCTYPE NETSCAPE-Bookmark-file-1>" ++ nl ++
  "<!-- This is an automatically generated file." ++ nl ++
  "     It will be read and overwritten." ++ nl ++
  "     DO NOT EDIT! -->" ++ nl ++
  "<META HTTP-EQUIV=" ++ q ++ "Content-Type" ++ q ++ " CONTENT=" ++ q
    ++ "text/html; charset=UTF-8" ++ q ++ ">" ++ nl ++
  "<TITLE>Bookmarks</TITLE>" ++ nl ++
  "<H1>Bookmarks</H1>" ++ nl ++
  "<DL><p>".

Definition footer : string := "</DL><p>".

Definition generate_bookmarks_html (root_folder : BookmarkFolder) : string :=
  let content := generate_folder_html root_folder 0 in
  join nl ([header] ++ content ++ [footer]).

(** [count_folders], the local function of the converter. *)
Fixpoint count_folders (folder : BookmarkFolder) : nat :=
  match folder with
  | mkFolder _ subs _ =>
      List.length subs + list_sum (map (fun kv => count_folders (snd kv)) subs)
  end.

(* ================================================================== *)
(** ** The conversion run *)
(* ================================================================== *)

(** An exception of class [Exception], with the text [str(e)] gives. *)
Inductive Exception : Type := mkException (message : string).

Definition str_of_exception (e : Exception) : string :=
  match e with mkException m => m end.

(** [KeyError(k)]; its text is the key between single quotes. *)
Definition KeyError (k : string) : Exception := mkException ("'" ++ k ++ "'").

Inductive result (A : Type) : Type :=
  | Ok (a : A)
  | Raise (e : Exception).
Arguments Ok {A} a.
Arguments Raise {A} e.

(** A data frame as [read_csv] returns it: the names of its columns and its
    rows. The field of a row for a column the frame lacks is never read. *)
Record DataFrame := mkDataFrame {
  columns : list string;
  rows : list Row
}.

(** The files of the run: what [pd.read_csv] does on a path (an unreadable
    file or a table pandas cannot parse raises), and whether opening and
    writing a path fails. *)
Record FileSystem := mkFileSystem {
  read_csv : string -> result DataFrame;
  write_text : string -> string -> option Exception
}.

(** What the run changes: the clock readings made, the lines printed, and
    the files written (path and text, the last write of a path wins). *)
Record World := mkWorld {
  ticks : nat;
  stdout : list string;
  files : list (string * string)
}.

(** A step of the run: it changes the world and returns or raises. *)
Definition Run (A : Type) : Type := World -> result A * World.

Definition run_ret {A : Type} (a : A) : Run A := fun w => (Ok a, w).

Definition run_bind {A B : Type} (m : Run A) (f : A -> Run B) : Run B :=
  fun w =>
    match m w with
    | (Ok a, w') => f a w'
    | (Raise e, w') => (Raise e, w')
    end.

Notation "x <~ m ;; k" := (run_bind m (fun x => k))
  (at level 100, m at next level, right associativity).

Definition raise {A : Type} (e : Exception) : Run A := fun w => (Raise e, w).

(** [try: body except Exception as e: handler(e)]. *)
Definition try_except {A : Type} (body : Run A) (handler : Exception -> Run A) : Run A :=
  fun w =>
    match body w with
    | (Ok a, w') => (Ok a, w')
    | (Raise e, w') => handler e w'
    end.

(** [print(line)]. *)
Definition print (line : string) : Run unit :=
  fun w => (Ok tt, mkWorld (ticks w) (stdout w ++ [line]) (files w)).

(** A clock computation as a step of the run. *)
Definition lift_clock {A : Type} (m : Clock A) : Run A :=
  fun w => let '(a, n) := m (ticks w) in (Ok a, mkWorld n (stdout w) (files w)).

(** [pd.read_csv(path)]. *)
Definition run_read_csv (fs : FileSystem) (path : string) : Run DataFrame :=
  fun w => (read_csv fs path, w).

(** [with open(path, 'w', encoding='utf-8') as f: f.write(text)]. What a
    failed write leaves of the file is not modelled. *)
Definition run_write (fs : FileSystem) (path text : string) : Run unit :=
  fun w =>
    match write_text fs path text with
    | None => (Ok tt, mkWorld (ticks w) (stdout w) (dict_set path text (files w)))
    | Some e => (Raise e, w)
    end.

(** [df[c]] and [row[c]] raise [KeyError] for a column the frame lacks. *)
Definition require_column (c : string) (df : DataFrame) : Run unit :=
  if existsb (String.eqb c) (columns df) then run_ret tt else raise (KeyError c).

(** [create_folder_structure] on a frame: [sort_values] looks the folder
    column up, and the loop body, when there is a row, looks up title, url
    and created before the first bookmark is made. *)
Definition create_folder_structure_df (pf : Platform) (df : DataFrame)
    : Run BookmarkFolder :=
  _ <~ require_column "folder" df ;;
  _ <~ match rows df with
       | [] => run_ret tt
       | _ :: _ =>
           _ <~ require_column "title" df ;;
           _ <~ require_column "url" df ;;
           require_column "created" df
       end ;;
  lift_clock (create_folder_structure pf (rows df)).

(** The body of the [try] statement. *)
Definition convert_body (pf : Platform) (fs : FileSystem)
    (input_csv output_file : string) : Run unit :=
  df <~ run_read_csv fs input_csv ;;
  root_folder <~ create_folder_structure_df pf df ;;
  let bookmarks_html := generate_bookmarks_html root_folder in
  _ <~ run_write fs output_file bookmarks_html ;;
  let total_folders := count_folders root_folder in
  _ <~ print ("Successfully converted bookmarks to " ++ output_file) ;;
  _ <~ print ("Total bookmarks processed: "
              ++ str_of_int (Z.of_nat (List.length (rows df)))) ;;
  print ("Number of folders: " ++ str_of_int (Z.of_nat total_folders)).

Definition convert_raindrop_to_browser_bookmarks (pf : Platform) (fs : FileSystem)
    (input_csv output_file : string) : Run unit :=
  try_except
    (convert_body pf fs input_csv output_file)
    (fun e => print ("Error converting bookmarks: " ++ str_of_exception e)).

(* ================================================================== *)
(** ** Notions the properties are stated with *)
(* ================================================================== *)

(** A string made of white space only (the empty string included). *)
Fixpoint all_space (s : string) : bool :=
  match s with
  | EmptyString => true
  | String c r => isspace c && all_space r
  end.

(** A blank cell: NaN, or text that is empty or white space only. *)
Definition blank (c : option string) : bool :=
  match c with
  | None => true
  | Some s => all_space s
  end.

(** A [created] cell that gives no time: NaN, blank, or text that
    [fromisoformat] rejects. *)
Definition no_timestamp (c : option string) : Prop :=
  blank c = true \/
  exists s, c = Some s /\ Datetime.fromisoformat (replace_Z s) = None.

(** The folder [f] and every folder below it, parents first. *)
Fixpoint all_folders (f : BookmarkFolder) : list BookmarkFolder :=
  match f with
  | mkFolder _ subs _ => f :: flat_map (fun kv => all_folders (snd kv)) subs
  end.

(** The folders below the root: every folder but the root itself. *)
Definition non_root_folders (root : BookmarkFolder) : list BookmarkFolder :=
  tl (all_folders root).

(** The paths of the folders below [f], as the lists of dict keys that lead
    to them from [f]. *)
Fixpoint folder_paths (f : BookmarkFolder) : list (list string) :=
  match f with
  | mkFolder _ subs _ =>
      flat_map (fun kv => [fst kv] :: map (cons (fst kv)) (folder_paths (snd kv))) subs
  end.

(** The folder reached from [f] along a path of dict keys. *)
Fixpoint folder_at (path : list string) (f : BookmarkFolder) : option BookmarkFolder :=
  match path with
  | [] => Some f
  | k :: rest =>
      match dict_get k (subfolders f) with
      | Some sub => folder_at rest sub
      | None => None
      end
  end.

(** The lines of a text and the number of them that contain a tag. *)
Definition lines (doc : string) : list string := split (ascii_of_nat 10) doc.

Definition count_lines_with (tag : string) (doc : string) : nat :=
  List.length (filter (contains tag) (lines doc)).

(* ================================================================== *)
(** ** Sample inputs *)
(* ================================================================== *)

(** A platform on UTC whose clock advances by a second per reading. *)
Definition sample_platform : Platform :=
  mkPlatform (fun i => 1730624400 + Z.of_nat i)%Z (fun s => s).

(** The row of the round-trip check. *)
Definition row_A_B : Row :=
  mkRow (Some "T") "http://x" (Some "A/B") (Some "2024-01-01T00:00:00Z").

(** Its entry line. *)
Definition line_A_B : string :=
  "<DT><A HREF=" ++ q ++ "http://x" ++ q ++ " ADD_DATE=" ++ q ++ "1704067200"
    ++ q ++ ">T</A>".

(** Two rows whose folder names differ in case only. *)
Definition row_X : Row := mkRow (Some "one") "http://one" (Some "X") None.
Definition row_x : Row := mkRow (Some "two") "http://two" (Some "x") None.

(** A row whose folder cell is one space, and the same row without a
    folder. *)
Definition row_space : Row := mkRow (Some "T") "http://x" (Some " ") None.
Definition row_nofolder : Row := mkRow (Some "T") "http://x" None None.

(** A row in a folder that is named like the root. *)
Definition row_named_root : Row := mkRow (Some "T") "http://x" (Some "root") None.

(* ================================================================== *)
(** ** The invariant of the built tree *)
(* ================================================================== *)

(** A folder whose dicts are dicts: below it no dict has a key twice, and
    every subfolder is filed under its own name. *)
#[warnings="-register-all"]
Inductive well_keyed : BookmarkFolder -> Prop :=
  | well_keyed_folder (n : string) (subs : list (string * BookmarkFolder))
      (marks : list string) :
      NoDup (map fst subs) ->
      Forall (fun kv => fst kv = name (snd kv) /\ well_keyed (snd kv)) subs ->
      well_keyed (mkFolder n subs marks).

(** A folder all of whose bookmarks, and those of the folders below it,
    have the property [P]. *)
#[warnings="-register-all"]
Inductive all_marks (P : string -> Prop) : BookmarkFolder -> Prop :=
  | all_marks_folder (n : string) (subs : list (string * BookmarkFolder))
      (marks : list string) :
      Forall P marks ->
      Forall (fun kv => all_marks P (snd kv)) subs ->
      all_marks P (mkFolder n subs marks).

(* ================================================================== *)
(** ** Scanning a line for the list tags *)
(* ================================================================== *)

(** The character [c] does not occur in [s]. *)
Fixpoint lacks (c : ascii) (s : string) : bool :=
  match s with
  | EmptyString => true
  | String c' r => negb (Ascii.eqb c' c) && lacks c r
  end.

(** Somewhere in [s] the character [<] is followed by the letter [p], as it
    is in both list tags; [after_lt] says that the character before [s]
    was a [<]. *)
Fixpoint lt_then_p (after_lt : bool) (s : string) : bool :=
  match s with
  | EmptyString => false
  | String c r => (after_lt && Ascii.eqb c "p") || lt_then_p (Ascii.eqb c "<") r
  end.

(** A line that has no list tag in it for the reason that it has no [<p]. *)
Definition tag_free (s : string) : Prop := lt_then_p false s = false.

(** The number of lines with a tag, for the text given as a list of
    pieces that are joined by line feeds. *)
Definition count_in (tag : string) (pieces : list string) : nat :=
  List.length (filter (contains tag) (flat_map lines pieces)).

(** The folders among [f] and the folders below it that the renderer gives
    a header to: those whose name is not the word root. *)
Definition rendered_folders (f : BookmarkFolder) : nat :=
  List.length (filter (fun g => negb (String.eqb (name g) "root")) (all_folders f)).

(* ================================================================== *)
(** ** The failures of a run *)
(* ================================================================== *)

(** The first column, in the order the converter looks them up, that the
    frame lacks: folder for the sort, then title, url and created for the
    first row when there is one. *)
Definition missing_column (df : DataFrame) : option string :=
  let lacking c := negb (existsb (String.eqb c) (columns df)) in
  if lacking "folder" then Some "folder"
  else match rows df with
       | [] => None
       | _ :: _ =>
           if lacking "title" then Some "title"
           else if lacking "url" then Some "url"
           else if lacking "created" then Some "created"
           else None
       end.

(** The document a run writes for a frame, from the clock state [n]. *)
Definition document_of (pf : Platform) (df : DataFrame) (n : nat) : string :=
  generate_bookmarks_html (fst (create_folder_structure pf (rows df) n)).

(** The failure of a run, if it has one: the input cannot be read or is not
    a table, the table lacks a column, or the output cannot be written. *)
Definition failure_of (pf : Platform) (fs : FileSystem)
    (input_csv output_file : string) (n : nat) : option Exception :=
  match read_csv fs input_csv with
  | Raise e => Some e
  | Ok df =>
      match missing_column df with
      | Some c => Some (KeyError c)
      | None => write_text fs output_file (document_of pf df n)
      end
  end.

(** A file system with one good table, one table without the folder
    column, and one writable path. *)
Definition sample_files : FileSystem :=
  mkFileSystem
    (fun path =>
       if String.eqb path "Backups.csv"
       then Ok (mkDataFrame ["title"; "url"; "folder"; "created"] [row_A_B])
       else if String.eqb path "nofolder.csv"
       then Ok (mkDataFrame ["title"; "url"; "created"] [row_A_B])
       else Raise (mkException "[Errno 2] No such file or directory"))
    (fun path _ =>
       if String.eqb path "bookmarks.html" then None
       else Some (mkException "[Errno 13] Permission denied")).

Definition empty_world : World := mkWorld 0 [] [].

(* ================================================================== *)
(** ** The builder without its sort step *)
(* ================================================================== *)

(** The tree built from the rows in the order of the table: the builder as
    it would be without [sort_values]. *)
Definition create_folder_structure_unsorted (pf : Platform) (bookmarks_df : list Row)
    : Clock BookmarkFolder :=
  add_rows pf bookmarks_df (new_folder "root").


(** Two rows of folders whose names differ in case only, the lower-case
    one first in the table. *)
Definition row_lower_x : Row :=
  mkRow (Some "first") "http://1" (Some "x") (Some "2024-01-01T00:00:00Z").
Definition row_upper_X : Row :=
  mkRow (Some "second") "http://2" (Some "X") (Some "2024-01-01T00:00:00Z").

(** Two rows without a usable time, filed in different folders. *)
Definition row_b_now : Row := mkRow (Some "first") "http://1" (Some "b") None.
Definition row_a_now : Row := mkRow (Some "second") "http://2" (Some "a") None.





(** The bookmarks of the folder at a path, if there is a folder. *)
Definition marks_at (path : list string) (f : BookmarkFolder) : option (list string) :=
  option_map bookmarks (folder_at path f).

(** [p] is the beginning of [q]; equality of two paths. *)
Fixpoint is_prefix (p q : list string) : bool :=
  match p, q with
  | [], _ => true
  | a :: p', b :: q' => String.eqb a b && is_prefix p' q'
  | _ :: _, [] => false
  end.

Fixpoint path_eqb (p q : list string) : bool :=
  match p, q with
  | [], [] => true
  | a :: p', b :: q' => String.eqb a b && path_eqb p' q'
  | _, _ => false
  end.

(** The bookmarks of [m], none when there is no folder. *)
Definition marks_or_none (m : option (list string)) : list string :=
  match m with Some l => l | None => [] end.

(** The builder on rows that are already normalized: a path and an entry
    line each. *)
Fixpoint add_items (items : list (list string * string)) (root : BookmarkFolder)
    : BookmarkFolder :=
  match items with
  | [] => root
  | (p, b) :: rest => add_items rest (add_path p b root)
  end.


(** The subfolder filed under a key; a fresh folder when there is none. *)
Definition child_of (subs : list (string * BookmarkFolder)) (k : string) : BookmarkFolder :=
  match dict_get k subs with
  | Some sub => sub
  | None => new_folder k
  end.


(* ================================================================== *)
(** ** Further notions: the rows as the loop meets them *)
(* ================================================================== *)

(** The path and the entry line of every row, in the order given, each
    entry line made with the clock as the rows before it have left it. *)
Fixpoint row_items (pf : Platform) (rows : list Row) (n : nat)
    : list (list string * string) :=
  match rows with
  | [] => []
  | row :: rest =>
      let '(bookmark_html, n') :=
        create_bookmark_html pf (title_or_url row) (url row) (created row) n in
      (folders_of (folder row), bookmark_html) :: row_items pf rest n'
  end.

(** The entry lines of a folder and of all folders below it. *)
Definition all_bookmarks (f : BookmarkFolder) : list string :=
  flat_map bookmarks (all_folders f).


(** The number of occurrences of a character in a string. *)
Fixpoint count_char (c : ascii) (s : string) : nat :=
  match s with
  | EmptyString => 0
  | String c' r => (if Ascii.eqb c' c then 1 else 0) + count_char c r
  end.

(** Every folder below [f] has a name with the property [P]. *)
#[warnings="-register-all"]
Inductive names_below (P : string -> Prop) : BookmarkFolder -> Prop :=
  | names_below_folder (n : string) (subs : list (string * BookmarkFolder))
      (marks : list string) :
      Forall (fun kv => P (name (snd kv)) /\ names_below P (snd kv)) subs ->
      names_below P (mkFolder n subs marks).

(** Somewhere in [s] the character [<] is followed by the character [c];
    [after_lt] says that the character before [s] was a [<]. *)
Fixpoint lt_then (c : ascii) (after_lt : bool) (s : string) : bool :=
  match s with
  | EmptyString => false
  | String x r => (after_lt && Ascii.eqb x c) || lt_then c (Ascii.eqb x "<") r
  end.

(** A line made by [create_bookmark_html]. *)
Definition is_entry_line (b : string) : Prop :=
  exists u d t, b = entry_line (escape u) d (escape t).

(** Two rows in the folder A/B, and a table of rows without folder. *)
Definition row_A_B_second : Row :=
  mkRow (Some "U") "http://y" (Some "A/B") (Some "2024-01-01T00:00:01Z").
Definition row_flat_1 : Row := mkRow (Some "one") "http://1" None None.
Definition row_flat_2 : Row := mkRow None "http://2" None (Some "2024-01-01T00:00:00Z").

(* ================================================================== *)
(** ** Record normalizer: title and timestamp fallbacks *)
(* ================================================================== *)

Section Normalizer.
Variable pf : Platform.

Lemma create_bookmark_html_eq (t u : string) (c : option string) (n : nat) :
  create_bookmark_html pf t u c n =
  (entry_line (escape u) (fst (add_date_of pf c n)) (escape t),
   snd (add_date_of pf c n)).
Proof.
  unfold create_bookmark_html, bind, ret.
  destruct (add_date_of pf c n) as [d n']; reflexivity.
Qed.

(** White space is neither a digit nor the letter Z. *)
Lemma isspace_not_digit (a : ascii) :
  isspace a = true -> Datetime.digit a = None /\ Ascii.eqb a "Z" = false.
Proof.
  destruct a as [b0 b1 b2 b3 b4 b5 b6 b7].
  destruct b0, b1, b2, b3, b4, b5, b6, b7; vm_compute; intro H;
    first [discriminate H | split; reflexivity].
Qed.

Lemma blank_text_unparsable (s : string) :
  all_space s = true -> Datetime.fromisoformat (replace_Z s) = None.
Proof.
  destruct s as [|a r]; [reflexivity|].
  simpl. intro H. apply andb_true_iff in H as [Ha _].
  destruct (isspace_not_digit a Ha) as [Hd Hz].
  rewrite Hz. unfold Datetime.fromisoformat. simpl. rewrite Hd. reflexivity.
Qed.

Lemma add_date_of_fallback (c : option string) (n : nat) :
  no_timestamp c -> add_date_of pf c n = (now pf n, S n).
Proof.
  intros [Hb | [s [-> Hp]]].
  - destruct c as [s|]; [|reflexivity].
    simpl in Hb. simpl. rewrite (blank_text_unparsable s Hb).
    destruct (truthy s); reflexivity.
  - simpl. rewrite Hp. destruct (truthy s); reflexivity.
Qed.
End Normalizer.

(** C6. A row whose created cell is absent, blank or not an ISO timestamp
    is normalized without an error: the entry line is produced, its
    ADD_DATE is the reading of the wall clock made for that row, and the
    clock has been read exactly once. *)
Theorem created_fallback_is_wall_clock :
  forall (pf : Platform) (row : Row) (n : nat),
    no_timestamp (created row) ->
    create_bookmark_html pf (title_or_url row) (url row) (created row) n =
    (entry_line (escape (url row)) (now pf n) (escape (title_or_url row)), S n).
Proof.
  intros pf row n H.
  rewrite create_bookmark_html_eq, (add_date_of_fallback pf _ n H).
  reflexivity.
Qed.

Lemma created_fallback_is_wall_clock_witness :
  create_bookmark_html sample_platform "T" "http://x" (Some "yesterday") 0 =
  (entry_line "http://x" 1730624400 "T", 1%nat).
Proof.
  apply (created_fallback_is_wall_clock sample_platform
           (mkRow (Some "T") "http://x" None (Some "yesterday")) 0).
  right. exists "yesterday". split; reflexivity.
Defined.




(* ================================================================== *)
(** ** Concrete documents *)
(* ================================================================== *)

(** C5. One row with folder path A/B, title T, url http://x and created
    2024-01-01T00:00:00Z renders, on every platform, to the document that
    has the entry line with ADD_DATE 1704067200 two list levels deep, under
    the header of A and then the header of B; the clock is not read. *)
Theorem round_trip_A_B :
  forall (pf : Platform) (n : nat),
    generate_bookmarks_html (fst (create_folder_structure pf [row_A_B] n)) =
    join nl [header;
             "<DT><H3>A</H3>";
             "<DL><p>";
             "    <DT><H3>B</H3>";
             "    <DL><p>";
             ("        " ++ line_A_B)%string;
             "    </DL><p>";
             "</DL><p>";
             footer]
    /\ snd (create_folder_structure pf [row_A_B] n) = n.
Proof.
  intros pf n. split; reflexivity.
Qed.

(** C4 fails for a folder named root. The row lies in a folder below the
    root whose name is root; the document has no header line, no list-open
    and no list-close line for it, and its entry stands at the top level. *)
Theorem folder_named_root_has_no_header :
  forall (pf : Platform) (n : nat),
    let tree := fst (create_folder_structure pf [row_named_root] n) in
    tree = mkFolder "root"
             [("root", mkFolder "root" [] [entry_line "http://x" (now pf n) "T"])] []
    /\ generate_bookmarks_html tree =
       join nl [header; entry_line "http://x" (now pf n) "T"; footer].
Proof.
  intros pf n. cbv zeta. split; reflexivity.
Qed.

(* ================================================================== *)
(** ** Sorting *)
(* ================================================================== *)

Section SortFacts.
Context {A : Type} (lt : A -> A -> bool).

Lemma insert_by_In (x y : A) (l : list A) :
  In y (insert_by lt x l) <-> y = x \/ In y l.
Proof.
  induction l as [|z l IH]; simpl.
  - intuition congruence.
  - destruct (lt z x); simpl; rewrite ?IH; intuition congruence.
Qed.

Lemma sort_by_In (y : A) (l : list A) : In y (sort_by lt l) <-> In y l.
Proof.
  induction l as [|x l IH]; simpl; [tauto|].
  rewrite insert_by_In, IH. intuition congruence.
Qed.

Lemma sort_by_Forall (P : A -> Prop) (l : list A) :
  Forall P l -> Forall P (sort_by lt l).
Proof.
  rewrite !Forall_forall. intros H y Hy. apply H, sort_by_In, Hy.
Qed.

Lemma insert_by_Permutation (x : A) (l : list A) :
  Permutation (x :: l) (insert_by lt x l).
Proof.
  induction l as [|z l IH]; simpl; [reflexivity|].
  destruct (lt z x); [|reflexivity].
  rewrite perm_swap. constructor. exact IH.
Qed.

Lemma sort_by_Permutation (l : list A) : Permutation l (sort_by lt l).
Proof.
  induction l as [|x l IH]; simpl; [constructor|].
  rewrite <- insert_by_Permutation. constructor. exact IH.
Qed.
End SortFacts.

(** Sorting commutes with a map that keeps the order of the elements. *)
Lemma sort_by_map {A B : Type} (ltA : A -> A -> bool) (ltB : B -> B -> bool)
    (g : A -> B) (l : list A) :
  (forall a b, ltB (g a) (g b) = ltA a b) ->
  sort_by ltB (map g l) = map g (sort_by ltA l).
Proof.
  intro Hg. induction l as [|x l IH]; simpl; [reflexivity|].
  rewrite IH. generalize (sort_by ltA l) as s. clear IH.
  induction s as [|y s IHs]; simpl; [reflexivity|].
  rewrite Hg. destruct (ltA y x); simpl; [rewrite IHs|]; reflexivity.
Qed.

(* ================================================================== *)
(** ** Folders: induction and the equations of the renderer *)
(* ================================================================== *)

(** Induction over a folder with the property known of every subfolder. *)
Lemma BookmarkFolder_induction (P : BookmarkFolder -> Prop) :
  (forall n subs marks,
      Forall (fun kv => P (snd kv)) subs -> P (mkFolder n subs marks)) ->
  forall f, P f.
Proof.
  intro step.
  fix IH 1. intros [n subs marks]. apply step.
  induction subs as [|kv subs IHs]; constructor; [apply IH | exact IHs].
Qed.

(** The renderer as the source has it: the subfolders are sorted by their
    lower-cased names and then rendered one after the other. *)
Lemma generate_folder_html_eq (folder : BookmarkFolder) (level : nat) :
  generate_folder_html folder level =
  let is_root := String.eqb (name folder) "root" in
  let inner := if is_root then level else S level in
  (if is_root then []
   else [(indent_of level ++ "<DT><H3>" ++ escape (name folder) ++ "</H3>")%string;
         (indent_of level ++ "<DL><p>")%string])
  ++ map (fun bookmark => (indent_of inner ++ bookmark)%string) (bookmarks folder)
  ++ flat_map (fun subfolder => generate_folder_html subfolder inner)
       (sorted (fun x => lower (name x)) (dict_values (subfolders folder)))
  ++ (if is_root then [] else [(indent_of (inner - 1) ++ "</DL><p>")%string]).
Proof.
  destruct folder as [n subs marks]. cbn [generate_folder_html name subfolders bookmarks].
  cbv zeta. do 2 f_equal. f_equal.
  set (inner := if String.eqb n "root" then level else S level).
  unfold sorted, dict_values.
  rewrite flat_map_concat_map.
  rewrite <- (map_map snd (fun sub => (lower (name sub), generate_folder_html sub inner))).
  rewrite (sort_by_map (fun a b => String.ltb (lower (name a)) (lower (name b)))
             (fun a b => String.ltb (fst a) (fst b))
             (fun sub => (lower (name sub), generate_folder_html sub inner))).
  - rewrite map_map. reflexivity.
  - reflexivity.
Qed.

(** What C4 says, for every folder whose name is not the word root: the
    header line with the escaped name, the list-open line, the entries one
    level deeper, the subfolders in the order of their lower-cased names,
    and the list-close line. *)
Lemma generate_folder_html_named (folder : BookmarkFolder) (level : nat) :
  name folder <> "root" ->
  generate_folder_html folder level =
  [(indent_of level ++ "<DT><H3>" ++ escape (name folder) ++ "</H3>")%string;
   (indent_of level ++ "<DL><p>")%string]
  ++ map (fun bookmark => (indent_of (S level) ++ bookmark)%string) (bookmarks folder)
  ++ flat_map (fun subfolder => generate_folder_html subfolder (S level))
       (sorted (fun x => lower (name x)) (dict_values (subfolders folder)))
  ++ [(indent_of level ++ "</DL><p>")%string].
Proof.
  intro H. rewrite generate_folder_html_eq. cbv zeta.
  apply String.eqb_neq in H. rewrite H.
  replace (S level - 1) with level by lia. reflexivity.
Qed.

(** A folder named root is rendered like the root: its entries and
    subfolders at the level it was given, no line of its own. *)
Lemma generate_folder_html_root_name (folder : BookmarkFolder) (level : nat) :
  name folder = "root" ->
  generate_folder_html folder level =
  map (fun bookmark => (indent_of level ++ bookmark)%string) (bookmarks folder)
  ++ flat_map (fun subfolder => generate_folder_html subfolder level)
       (sorted (fun x => lower (name x)) (dict_values (subfolders folder))).
Proof.
  intro H. rewrite generate_folder_html_eq. cbv zeta. rewrite H.
  simpl. rewrite app_nil_r. reflexivity.
Qed.

(* ================================================================== *)
(** ** Folder names are matched exactly *)
(* ================================================================== *)

(** C1 as stated fails: the entries of a row filed under X and of a row
    filed under x are in no common folder of the tree. *)
Lemma X_and_x_share_no_folder :
  let tree := fst (create_folder_structure sample_platform [row_X; row_x] 0) in
  let entry_X := entry_line "http://one" 1730624400 "one" in
  let entry_x := entry_line "http://two" 1730624401 "two" in
  tree = mkFolder "root"
           [("X", mkFolder "X" [] [entry_X]); ("x", mkFolder "x" [] [entry_x])] []
  /\ ~ exists f, In f (all_folders tree) /\
                 In entry_X (bookmarks f) /\ In entry_x (bookmarks f).
Proof.
  cbv zeta. split; [reflexivity|].
  intros [f [Hf [HX Hx]]].
  vm_compute in Hf.
  destruct Hf as [<- | [<- | [<- | []]]]; vm_compute in HX, Hx.
  - exact HX.
  - destruct Hx as [Hx | []]. discriminate Hx.
  - destruct HX as [HX | []]. discriminate HX.
Qed.

(** C1, as the code has it. Two rows filed under X and under x, in either
    order in the table, give a root with two subfolders, X first: the folder
    X holds the entry of the first row only and the folder x the entry of
    the second row only. *)
Theorem X_and_x_are_two_folders :
  forall (pf : Platform) (t1 t2 : option string) (u1 u2 : string)
         (c1 c2 : option string) (n : nat),
    let r1 := mkRow t1 u1 (Some "X") c1 in
    let r2 := mkRow t2 u2 (Some "x") c2 in
    forall table, table = [r1; r2] \/ table = [r2; r1] ->
    exists d1 d2,
      fst (create_folder_structure pf table n) =
      mkFolder "root"
        [("X", mkFolder "X" [] [entry_line (escape u1) d1 (escape (title_or_url r1))]);
         ("x", mkFolder "x" [] [entry_line (escape u2) d2 (escape (title_or_url r2))])]
        [].
Proof.
  intros pf t1 t2 u1 u2 c1 c2 n r1 r2 table Htable.
  assert (Hsort : sort_values_folder table = [r1; r2])
    by (destruct Htable as [-> | ->]; reflexivity).
  unfold create_folder_structure. rewrite Hsort.
  cbn [add_rows]. unfold bind.
  rewrite !create_bookmark_html_eq.
  destruct (add_date_of pf (created r1) n) as [d1 n1]. cbn [fst snd].
  destruct (add_date_of pf (created r2) n1) as [d2 n2]. cbn [fst snd].
  exists d1, d2. reflexivity.
Qed.

Lemma X_and_x_are_two_folders_witness :
  exists d1 d2,
    fst (create_folder_structure sample_platform [row_x; row_X] 0) =
    mkFolder "root"
      [("X", mkFolder "X" [] [entry_line "http://one" d1 "one"]);
       ("x", mkFolder "x" [] [entry_line "http://two" d2 "two"])]
      [].
Proof.
  apply (X_and_x_are_two_folders sample_platform (Some "one") (Some "two")
           "http://one" "http://two" None None 0 [row_x; row_X]).
  right. reflexivity.
Defined.

(* ================================================================== *)
(** ** A folder cell of white space *)
(* ================================================================== *)

Lemma isspace_not_slash (a : ascii) : isspace a = true -> Ascii.eqb a "/" = false.
Proof.
  destruct a as [b0 b1 b2 b3 b4 b5 b6 b7].
  destruct b0, b1, b2, b3, b4, b5, b6, b7; vm_compute; intro H;
    first [discriminate H | reflexivity].
Qed.

Lemma split_all_space (s : string) : all_space s = true -> split "/" s = [s].
Proof.
  induction s as [|a r IH]; simpl; [reflexivity|].
  intro H. apply andb_true_iff in H as [Ha Hr].
  rewrite (isspace_not_slash a Ha), (IH Hr). reflexivity.
Qed.

Lemma lstrip_all_space (s : string) : all_space s = true -> lstrip s = "".
Proof.
  induction s as [|a r IH]; simpl; [reflexivity|].
  intro H. apply andb_true_iff in H as [Ha Hr]. rewrite Ha. apply IH, Hr.
Qed.

Lemma strip_all_space (s : string) : all_space s = true -> strip s = "".
Proof.
  intro H. unfold strip. rewrite (lstrip_all_space s H). reflexivity.
Qed.

Lemma folders_of_all_space (s : string) :
  s <> "" -> all_space s = true -> folders_of (Some s) = [""].
Proof.
  intros Hne Hs. unfold folders_of.
  destruct s as [|a r]; [congruence|].
  cbn [truthy]. rewrite (split_all_space _ Hs). cbn [map].
  rewrite (strip_all_space _ Hs). reflexivity.
Qed.

Section DictFacts.
Context {V : Type}.

Lemma dict_mem_set (k : string) (v : V) (d : list (string * V)) :
  dict_mem k (dict_set k v d) = true.
Proof.
  induction d as [|[k' v'] d IH]; simpl.
  - rewrite String.eqb_refl. reflexivity.
  - destruct (String.eqb k' k) eqn:E; simpl; rewrite E; [reflexivity | exact IH].
Qed.

Lemma dict_mem_update (k k0 : string) (f : V -> V) (d : list (string * V)) :
  dict_mem k0 (dict_update k f d) = dict_mem k0 d.
Proof.
  induction d as [|[k' v'] d IH]; simpl; [reflexivity|].
  destruct (String.eqb k' k); simpl; [|rewrite IH]; reflexivity.
Qed.

Lemma dict_get_update_same (k : string) (f : V -> V) (d : list (string * V)) :
  dict_get k (dict_update k f d) = option_map f (dict_get k d).
Proof.
  induction d as [|[k' v'] d IH]; simpl; [reflexivity|].
  destruct (String.eqb k' k) eqn:E; simpl; rewrite E; [reflexivity | exact IH].
Qed.

Lemma dict_get_set_new (k : string) (v : V) (d : list (string * V)) :
  dict_mem k d = false -> dict_get k (dict_set k v d) = Some v.
Proof.
  induction d as [|[k' v'] d IH]; simpl.
  - intros _. rewrite String.eqb_refl. reflexivity.
  - destruct (String.eqb k' k) eqn:E; simpl; [discriminate|].
    rewrite E. exact IH.
Qed.

Lemma dict_mem_get (k : string) (d : list (string * V)) :
  dict_mem k d = true <-> exists v, dict_get k d = Some v.
Proof.
  induction d as [|[k' v'] d IH]; simpl.
  - split; [discriminate | intros [v H]; discriminate].
  - destruct (String.eqb k' k); simpl; [|exact IH].
    split; [eexists; reflexivity | reflexivity].
Qed.
End DictFacts.

(** The step of the walk in the words of the source: the subfolder is
    created when the name is not in the dict, the walk goes on in
    [current.subfolders[folder_name]], and the dict holds the subfolder
    that the rest of the walk has changed. *)
Lemma add_path_step (k b : string) (rest : list string) (current : BookmarkFolder) :
  add_path (k :: rest) b current =
  mkFolder (name current)
    (dict_set k (add_path rest b (child_of (subfolders current) k)) (subfolders current))
    (bookmarks current).
Proof.
  cbn [add_path]. f_equal. unfold child_of.
  generalize (add_path rest b) as f. intro f.
  induction (subfolders current) as [|[k' v'] d IH]; cbn.
  - rewrite String.eqb_refl. reflexivity.
  - destruct (String.eqb k' k) eqn:E; cbn; rewrite ?E; [reflexivity|].
    rewrite <- IH. destruct (dict_mem k d); cbn; rewrite E; reflexivity.
Qed.

(** The walk along one folder name: the entries of the folder the walk
    starts from stay as they are, and the subfolder of that name holds its
    earlier entries, none if it is new, and then the bookmark. *)
Lemma add_path_one (k b : string) (root : BookmarkFolder) :
  let root' := add_path [k] b root in
  name root' = name root /\
  bookmarks root' = bookmarks root /\
  exists sub,
    dict_get k (subfolders root') = Some sub /\
    bookmarks sub =
    match dict_get k (subfolders root) with
    | Some old => bookmarks old
    | None => []
    end ++ [b].
Proof.
  cbv zeta. cbn [add_path name bookmarks subfolders].
  split; [reflexivity|]. split; [reflexivity|].
  rewrite dict_get_update_same.
  destruct (dict_mem k (subfolders root)) eqn:E; cbn [negb].
  - apply dict_mem_get in E as [old Hold]. rewrite Hold. cbn [option_map].
    eexists. split; reflexivity.
  - rewrite (dict_get_set_new _ _ _ E). cbn [option_map].
    assert (Hnone : dict_get k (subfolders root) = None).
    { destruct (dict_get k (subfolders root)) eqn:G; [|reflexivity].
      assert (dict_mem k (subfolders root) = true) by (apply dict_mem_get; eauto).
      congruence. }
    rewrite Hnone. eexists. split; reflexivity.
Qed.

(** C3 as stated fails: a row whose folder cell is one space is not
    attached to the root; a folder with the empty name is made for it. The
    same row without a folder is attached to the root. *)
Lemma space_folder_makes_a_folder :
  let entry := entry_line "http://x" 1730624400 "T" in
  all_space " " = true /\
  fst (create_folder_structure sample_platform [row_space] 0) =
    mkFolder "root" [("", mkFolder "" [] [entry])] [] /\
  fst (create_folder_structure sample_platform [row_nofolder] 0) =
    mkFolder "root" [] [entry] /\
  fst (create_folder_structure sample_platform [row_space] 0) <>
  fst (create_folder_structure sample_platform [row_nofolder] 0).
Proof.
  cbv zeta. repeat split. vm_compute. discriminate.
Qed.

(** C3, as the code has it. A folder cell that is not empty and is white
    space only stands for one folder with the empty name: the entry is
    appended to the subfolder of the root with the empty name, which is
    created when the root has none, and the entries of the root itself stay
    as they are. An absent or empty cell attaches the entry to the root. *)
Theorem whitespace_folder_is_empty_named_folder :
  forall (root : BookmarkFolder) (s b : string),
    s <> "" -> all_space s = true ->
    let root' := add_to_folder_structure root (Some s) b in
    root' = add_path [""] b root /\
    bookmarks root' = bookmarks root /\
    (exists sub,
        dict_get "" (subfolders root') = Some sub /\
        bookmarks sub =
        match dict_get "" (subfolders root) with
        | Some old => bookmarks old
        | None => []
        end ++ [b]) /\
    add_to_folder_structure root None b =
      mkFolder (name root) (subfolders root) (bookmarks root ++ [b]) /\
    add_to_folder_structure root (Some "") b =
      mkFolder (name root) (subfolders root) (bookmarks root ++ [b]).
Proof.
  intros root s b Hne Hs. cbv zeta.
  unfold add_to_folder_structure. rewrite (folders_of_all_space s Hne Hs).
  split; [reflexivity|].
  destruct (add_path_one "" b root) as [_ [Hb Hsub]].
  split; [exact Hb|]. split; [exact Hsub|]. split; reflexivity.
Qed.

Lemma whitespace_folder_is_empty_named_folder_witness :
  let root' := add_to_folder_structure (new_folder "root") (Some "  ") "entry" in
  root' = add_path [""] "entry" (new_folder "root") /\
  bookmarks root' = [] /\
  (exists sub,
      dict_get "" (subfolders root') = Some sub /\ bookmarks sub = ["entry"]) /\
  add_to_folder_structure (new_folder "root") None "entry" =
    mkFolder "root" [] ["entry"] /\
  add_to_folder_structure (new_folder "root") (Some "") "entry" =
    mkFolder "root" [] ["entry"].
Proof.
  apply (whitespace_folder_is_empty_named_folder (new_folder "root") "  " "entry").
  - discriminate.
  - reflexivity.
Defined.

(* ================================================================== *)
(** ** The invariant of the builder and the folder count *)
(* ================================================================== *)

Section DictShape.
Context {V : Type}.

Lemma dict_mem_In (k : string) (d : list (string * V)) :
  dict_mem k d = true <-> In k (map fst d).
Proof.
  induction d as [|[k' v'] d IH]; simpl; [split; [discriminate | tauto]|].
  rewrite orb_true_iff, IH, String.eqb_eq. tauto.
Qed.

Lemma dict_update_keys (k : string) (f : V -> V) (d : list (string * V)) :
  map fst (dict_update k f d) = map fst d.
Proof.
  induction d as [|[k' v'] d IH]; simpl; [reflexivity|].
  destruct (String.eqb k' k); simpl; [|rewrite IH]; reflexivity.
Qed.

Lemma dict_set_new_shape (k : string) (v : V) (d : list (string * V)) :
  dict_mem k d = false -> dict_set k v d = d ++ [(k, v)].
Proof.
  induction d as [|[k' v'] d IH]; simpl; [reflexivity|].
  destruct (String.eqb k' k); simpl; [discriminate|].
  intro H. rewrite (IH H). reflexivity.
Qed.

Lemma dict_update_Forall (P : string * V -> Prop) (k : string) (f : V -> V)
    (d : list (string * V)) :
  Forall P d ->
  (forall v, In (k, v) d -> P (k, v) -> P (k, f v)) ->
  Forall P (dict_update k f d).
Proof.
  induction d as [|[k' v'] d IH]; simpl; intros H Hf; [constructor|].
  inversion H as [|x l Hx Hl]; subst.
  destruct (String.eqb k' k) eqn:E.
  - apply String.eqb_eq in E. subst k'. constructor; [|exact Hl].
    apply Hf; [left; reflexivity | exact Hx].
  - constructor; [exact Hx|]. apply IH; [exact Hl|].
    intros v Hin. apply Hf. right. exact Hin.
Qed.
End DictShape.

Lemma name_add_path (p : list string) (b : string) (f : BookmarkFolder) :
  name (add_path p b f) = name f.
Proof. destruct p; reflexivity. Qed.

Lemma well_keyed_new_folder (n : string) : well_keyed (new_folder n).
Proof. constructor; constructor. Qed.

(** The walk keeps the invariant. *)
Lemma add_path_well_keyed (p : list string) (b : string) :
  forall f, well_keyed f -> well_keyed (add_path p b f).
Proof.
  induction p as [|k rest IH]; intros [n subs marks] H;
    inversion H as [n' subs' marks' Hnd Hall]; subst;
    cbn [add_path name subfolders bookmarks].
  - constructor; assumption.
  - constructor.
    + rewrite dict_update_keys.
      destruct (dict_mem k subs) eqn:E; cbn [negb]; [exact Hnd|].
      rewrite (dict_set_new_shape _ _ _ E), map_app. cbn [map fst].
      apply NoDup_app; [exact Hnd | repeat constructor; intros [] |].
      intros a Ha [<- | []].
      apply dict_mem_In in Ha. congruence.
    + apply dict_update_Forall.
      * destruct (dict_mem k subs) eqn:E; cbn [negb]; [exact Hall|].
        rewrite (dict_set_new_shape _ _ _ E). apply Forall_app. split; [exact Hall|].
        constructor; [|constructor]. split; [reflexivity | apply well_keyed_new_folder].
      * intros v _ [Hn Hw]. cbn [fst snd] in *. split.
        -- rewrite name_add_path. exact Hn.
        -- apply IH, Hw.
Qed.

Lemma add_rows_well_keyed (pf : Platform) (rs : list Row) :
  forall root n, well_keyed root -> well_keyed (fst (add_rows pf rs root n)).
Proof.
  induction rs as [|r rs IH]; intros root n H; cbn [add_rows]; [exact H|].
  unfold bind. rewrite create_bookmark_html_eq.
  apply IH. apply add_path_well_keyed, H.
Qed.

Lemma create_folder_structure_well_keyed (pf : Platform) (rs : list Row) (n : nat) :
  well_keyed (fst (create_folder_structure pf rs n)).
Proof.
  unfold create_folder_structure. apply add_rows_well_keyed, well_keyed_new_folder.
Qed.

(** [count_folders] counts every folder below the one it is given. *)
Lemma count_folders_all_folders (f : BookmarkFolder) :
  S (count_folders f) = List.length (all_folders f).
Proof.
  induction f as [n subs marks IH] using BookmarkFolder_induction.
  cbn [count_folders all_folders List.length]. f_equal.
  induction IH as [|kv subs Hkv _ IHs]; [reflexivity|].
  cbn [List.length map flat_map]. rewrite length_app, <- Hkv.
  unfold list_sum in *. cbn [fold_right]. lia.
Qed.


Lemma folder_paths_head (f : BookmarkFolder) (p : list string) :
  In p (folder_paths f) ->
  exists k rest, p = k :: rest /\ In k (map fst (subfolders f)).
Proof.
  destruct f as [n subs marks]. cbn [folder_paths subfolders].
  intro H. apply in_flat_map in H as [kv [Hkv Hp]].
  exists (fst kv). destruct Hp as [<- | Hp].
  - exists []. split; [reflexivity | apply in_map, Hkv].
  - apply in_map_iff in Hp as [rest [<- _]].
    exists rest. split; [reflexivity | apply in_map, Hkv].
Qed.


(** Every path leads to a folder of the tree. *)
Lemma folder_paths_folder_at (f : BookmarkFolder) :
  well_keyed f ->
  forall p, In p (folder_paths f) -> exists sub, folder_at p f = Some sub.
Proof.
  induction f as [n subs marks IH] using BookmarkFolder_induction.
  intros H p Hp. inversion H as [n' subs' marks' Hnd Hall]; subst. clear H.
  cbn [folder_paths] in Hp.
  induction subs as [|[k sub] subs IHs]; [destruct Hp|].
  cbn [flat_map map fst snd] in *.
  inversion IH as [|x l Hsub IHrest]; subst.
  inversion Hnd as [|x l Hk Hnd']; subst.
  inversion Hall as [|x l [_ Hwk] Hall']; subst.
  cbn [fst snd] in *.
  apply in_app_or in Hp as [Hp | Hp].
  - destruct Hp as [<- | Hp].
    + cbn. rewrite String.eqb_refl. eauto.
    + apply in_map_iff in Hp as [rest [<- Hrest]].
      cbn. rewrite String.eqb_refl. apply (Hsub Hwk), Hrest.
  - destruct p as [|k' rest]; [eexists; reflexivity|].
    destruct (IHs IHrest Hp Hnd' Hall') as [sub' Hsub'].
    exists sub'. cbn in Hsub' |- *.
    destruct (String.eqb k k') eqn:E; [|exact Hsub'].
    apply String.eqb_eq in E. subst k'. exfalso. apply Hk.
    apply in_flat_map in Hp as [kv [Hkv Hq]].
    replace k with (fst kv); [apply in_map, Hkv|].
    destruct Hq as [Hq | Hq]; [congruence|].
    apply in_map_iff in Hq as [rest' [Hq _]]. congruence.
Qed.

Lemma dict_get_Some_In {V : Type} (k : string) (v : V) (d : list (string * V)) :
  dict_get k d = Some v -> In (k, v) d.
Proof.
  induction d as [|[k' v'] d IH]; simpl; [discriminate|].
  destruct (String.eqb k' k) eqn:E.
  - apply String.eqb_eq in E. intros [= ->]. left. congruence.
  - intro H. right. apply IH, H.
Qed.

(** Every folder that is reached from the root along keys has its path in
    the list. *)
Lemma folder_at_folder_paths (p : list string) :
  forall f sub, p <> [] -> folder_at p f = Some sub -> In p (folder_paths f).
Proof.
  induction p as [|k rest IH]; intros [n subs marks] sub Hne H; [congruence|].
  cbn [folder_at subfolders] in H.
  destruct (dict_get k subs) as [child|] eqn:G; [|discriminate].
  apply dict_get_Some_In in G.
  cbn [folder_paths]. apply in_flat_map. exists (k, child). split; [exact G|].
  cbn [fst snd]. destruct rest as [|k' rest']; [left; reflexivity|].
  right. apply in_map. apply (IH child sub); [discriminate | exact H].
Qed.


(* ================================================================== *)
(** ** List tags are balanced *)
(* ================================================================== *)

Lemma append_assoc (a b c : string) : ((a ++ b) ++ c = a ++ (b ++ c))%string.
Proof. induction a as [|x a IH]; simpl; [|rewrite IH]; reflexivity. Qed.

Lemma append_nil_r (a : string) : (a ++ "")%string = a.
Proof. induction a as [|x a IH]; simpl; [|rewrite IH]; reflexivity. Qed.

(** [prefix] and [contains] say that the string has the pattern in it. *)
Lemma prefix_iff (p s : string) :
  String.prefix p s = true <-> exists b, s = (p ++ b)%string.
Proof.
  revert s. induction p as [|x p IH]; intros s; simpl.
  - destruct s; split; eauto.
  - destruct s as [|y s]; [split; [discriminate | intros [b H]; discriminate]|].
    change (String.prefix (String x p) (String y s))
      with (if ascii_dec x y then String.prefix p s else false).
    destruct (ascii_dec x y) as [-> | Hne].
    + rewrite IH. split; intros [b H]; exists b; congruence.
    + split; [discriminate | intros [b H]; congruence].
Qed.

Lemma contains_iff (p s : string) :
  contains p s = true <-> exists a b, s = (a ++ p ++ b)%string.
Proof.
  induction s as [|y s IH]; cbn [contains]; rewrite orb_true_iff, prefix_iff.
  - split.
    + intros [[b H] | H]; [exists "", b; exact H | discriminate].
    + intros [a [b H]]. left. destruct a; [exists b; exact H | discriminate].
  - rewrite IH. split.
    + intros [[b H] | [a [b H]]]; [exists "", b; exact H|].
      exists (String y a), b. simpl. congruence.
    + intros [a [b H]]. destruct a as [|x a]; [left; exists b; exact H|].
      right. exists a, b. simpl in H. congruence.
Qed.

(** A [<p] anywhere is found by the scan. *)
Lemma lt_then_p_found (a b : string) :
  forall st, lt_then_p st (a ++ "<p" ++ b) = true.
Proof.
  induction a as [|x a IH]; intro st; simpl.
  - apply orb_true_r.
  - rewrite IH. apply orb_true_r.
Qed.

Lemma tag_free_no_open (s : string) : tag_free s -> contains "<DL><p>" s = false.
Proof.
  intro H. destruct (contains "<DL><p>" s) eqn:E; [|reflexivity].
  apply contains_iff in E as [a [b ->]].
  unfold tag_free in H.
  change (a ++ "<DL><p>" ++ b)%string with (a ++ "<DL>" ++ ("<p" ++ (">" ++ b)))%string in H.
  rewrite <- append_assoc, lt_then_p_found in H. discriminate.
Qed.

Lemma tag_free_no_close (s : string) : tag_free s -> contains "</DL><p>" s = false.
Proof.
  intro H. destruct (contains "</DL><p>" s) eqn:E; [|reflexivity].
  apply contains_iff in E as [a [b ->]].
  unfold tag_free in H.
  change (a ++ "</DL><p>" ++ b)%string with (a ++ "</DL>" ++ ("<p" ++ (">" ++ b)))%string in H.
  rewrite <- append_assoc, lt_then_p_found in H. discriminate.
Qed.

(** The scan of a string that begins with a part without [<]. *)
Lemma lt_then_p_skip (x y : string) :
  lacks "<" x = true -> lt_then_p false (x ++ y) = lt_then_p false y.
Proof.
  induction x as [|c x IH]; simpl; [reflexivity|].
  intro H. apply andb_true_iff in H as [Hc Hx].
  apply negb_true_iff in Hc. rewrite Hc. apply IH, Hx.
Qed.

Lemma lacks_app (c : ascii) (x y : string) :
  lacks c (x ++ y) = lacks c x && lacks c y.
Proof.
  induction x as [|d x IH]; simpl; [reflexivity|].
  rewrite IH, andb_assoc. reflexivity.
Qed.

Lemma lacks_lt_escape (s : string) : lacks "<" (escape s) = true.
Proof.
  induction s as [|c s IH]; simpl; [reflexivity|].
  rewrite lacks_app, IH, andb_true_r. unfold escape_char.
  destruct (Ascii.eqb c "&"); [reflexivity|].
  destruct (Ascii.eqb c "<") eqn:E; [reflexivity|].
  destruct (Ascii.eqb c ">"); [reflexivity|].
  destruct (Ascii.eqb c dquote); [reflexivity|].
  destruct (Ascii.eqb c "'"); [reflexivity|].
  simpl. rewrite E. reflexivity.
Qed.

Lemma lacks_indent (c : ascii) (level : nat) :
  Ascii.eqb " " c = false -> lacks c (indent_of level) = true.
Proof.
  intro H. induction level as [|k IH]; [reflexivity|].
  unfold indent_of in *. cbn [repeat_str]. rewrite lacks_app, IH.
  cbn [lacks]. rewrite H. reflexivity.
Qed.

Lemma lacks_lt_uint (d : Decimal.uint) : lacks "<" (NilEmpty.string_of_uint d) = true.
Proof. induction d; simpl; auto. Qed.

Lemma lacks_lt_str_of_int (n : Z) : lacks "<" (str_of_int n) = true.
Proof.
  unfold str_of_int, NilZero.string_of_int.
  destruct (Z.to_int n) as [d | d]; cbn [lacks]; try (apply lacks_lt_uint).
  - unfold NilZero.string_of_uint. destruct d; try reflexivity; apply lacks_lt_uint.
  - unfold NilZero.string_of_uint. destruct d; try reflexivity; apply lacks_lt_uint.
Qed.

(** Every entry line is free of list tags, whatever its url and title. *)
Lemma entry_line_tag_free (u t : string) (d : Z) :
  tag_free (entry_line (escape u) d (escape t)).
Proof.
  unfold tag_free, entry_line. cbn.
  rewrite (lt_then_p_skip (escape u)) by apply lacks_lt_escape. cbn.
  rewrite (lt_then_p_skip (str_of_int d)) by apply lacks_lt_str_of_int. cbn.
  rewrite (lt_then_p_skip (escape t)) by apply lacks_lt_escape. reflexivity.
Qed.

Lemma indented_tag_free (level : nat) (s : string) :
  tag_free s -> tag_free (indent_of level ++ s).
Proof.
  unfold tag_free. intro H.
  rewrite lt_then_p_skip; [exact H | apply lacks_indent; reflexivity].
Qed.

Lemma folder_header_tag_free (level : nat) (n : string) :
  tag_free (indent_of level ++ "<DT><H3>" ++ escape n ++ "</H3>").
Proof.
  apply indented_tag_free. unfold tag_free. cbn.
  rewrite (lt_then_p_skip (escape n)) by apply lacks_lt_escape. reflexivity.
Qed.

(** The pieces of [split] are parts of the string. *)
Lemma split_nonempty (c : ascii) (s : string) : split c s <> [].
Proof.
  destruct s as [|x s]; simpl; [discriminate|].
  destruct (Ascii.eqb x c); [discriminate|].
  destruct (split c s); discriminate.
Qed.

Lemma split_head (c : ascii) (s : string) :
  forall p ps, split c s = p :: ps -> exists b, s = (p ++ b)%string.
Proof.
  induction s as [|x s IH]; simpl; intros p ps H.
  - injection H as <- _. exists "". reflexivity.
  - destruct (Ascii.eqb x c).
    + injection H as <- _. eexists. reflexivity.
    + destruct (split c s) as [|p' ps'] eqn:E; injection H as <- _.
      * exists s. reflexivity.
      * destruct (IH p' ps' eq_refl) as [b ->]. exists b. reflexivity.
Qed.

Lemma split_piece (c : ascii) (s : string) :
  forall p, In p (split c s) -> exists a b, s = (a ++ p ++ b)%string.
Proof.
  induction s as [|x s IH]; simpl; intros p H.
  - destruct H as [<- | []]. exists "", "". reflexivity.
  - destruct (Ascii.eqb x c).
    + destruct H as [<- | H]; [exists "", (String x s); reflexivity|].
      destruct (IH p H) as [a [b ->]]. exists (String x a), b. reflexivity.
    + destruct (split c s) as [|p' ps'] eqn:E.
      * destruct H as [<- | []]. exists "", s. reflexivity.
      * destruct H as [<- | H].
        -- destruct (split_head c s p' ps' E) as [b ->]. exists "", b. reflexivity.
        -- destruct (IH p (or_intror H)) as [a [b ->]].
           exists (String x a), b. reflexivity.
Qed.

Lemma split_app_sep (c : ascii) (a b : string) :
  split c (a ++ String c b) = split c a ++ split c b.
Proof.
  induction a as [|x a IH]; simpl.
  - rewrite Ascii.eqb_refl. reflexivity.
  - destruct (Ascii.eqb x c); [rewrite IH; reflexivity|].
    rewrite IH. destruct (split c a) as [|p ps] eqn:E; [|reflexivity].
    exfalso. exact (split_nonempty c a E).
Qed.

Lemma split_lacks (c : ascii) (s : string) : lacks c s = true -> split c s = [s].
Proof.
  induction s as [|x s IH]; simpl; [reflexivity|].
  intro H. apply andb_true_iff in H as [Hx Hs]. apply negb_true_iff in Hx.
  rewrite Hx, (IH Hs). reflexivity.
Qed.

(** The lines of a text joined by line feeds are the lines of its pieces. *)
Lemma lines_join (x : string) (xs : list string) :
  lines (join nl (x :: xs)) = flat_map lines (x :: xs).
Proof.
  revert x. induction xs as [|y xs IH]; intro x.
  - cbn [join flat_map]. rewrite app_nil_r. reflexivity.
  - change (join nl (x :: y :: xs)) with (x ++ String (ascii_of_nat 10) (join nl (y :: xs)))%string.
    unfold lines at 1. rewrite split_app_sep. fold (lines x).
    fold (lines (join nl (y :: xs))). rewrite IH. reflexivity.
Qed.

Lemma filter_none {A : Type} (f : A -> bool) (l : list A) :
  (forall x, In x l -> f x = false) -> filter f l = [].
Proof.
  induction l as [|x l IH]; intro H; [reflexivity|].
  simpl. rewrite (H x (or_introl eq_refl)). apply IH.
  intros y Hy. apply H. right. exact Hy.
Qed.

Lemma count_in_app (tag : string) (l1 l2 : list string) :
  count_in tag (l1 ++ l2) = count_in tag l1 + count_in tag l2.
Proof.
  unfold count_in. rewrite flat_map_app, filter_app, length_app. reflexivity.
Qed.

Lemma count_in_cons (tag x : string) (l : list string) :
  count_in tag (x :: l) = count_in tag [x] + count_in tag l.
Proof. apply (count_in_app tag [x] l). Qed.

Lemma count_in_flat_map {A : Type} (tag : string) (g : A -> list string) (l : list A) :
  count_in tag (flat_map g l) = list_sum (map (fun x => count_in tag (g x)) l).
Proof.
  induction l as [|x l IH]; [reflexivity|].
  cbn [flat_map map]. rewrite count_in_app, IH. reflexivity.
Qed.

Lemma list_sum_Permutation (l l' : list nat) :
  Permutation l l' -> list_sum l = list_sum l'.
Proof.
  induction 1; unfold list_sum in *; cbn [fold_right]; lia.
Qed.

(** A piece of a tag-free line has neither tag. *)
Lemma tag_free_piece (s p : string) :
  tag_free s -> In p (lines s) ->
  contains "<DL><p>" p = false /\ contains "</DL><p>" p = false.
Proof.
  intros Hs Hp. apply split_piece in Hp as [a [b ->]].
  split.
  - destruct (contains "<DL><p>" p) eqn:E; [|reflexivity].
    apply contains_iff in E as [a' [b' ->]].
    assert (H : contains "<DL><p>" (a ++ (a' ++ "<DL><p>" ++ b') ++ b) = true).
    { apply contains_iff. exists (a ++ a')%string, (b' ++ b)%string.
      rewrite !append_assoc. reflexivity. }
    rewrite (tag_free_no_open _ Hs) in H. discriminate.
  - destruct (contains "</DL><p>" p) eqn:E; [|reflexivity].
    apply contains_iff in E as [a' [b' ->]].
    assert (H : contains "</DL><p>" (a ++ (a' ++ "</DL><p>" ++ b') ++ b) = true).
    { apply contains_iff. exists (a ++ a')%string, (b' ++ b)%string.
      rewrite !append_assoc. reflexivity. }
    rewrite (tag_free_no_close _ Hs) in H. discriminate.
Qed.

Lemma count_in_tag_free (s : string) :
  tag_free s -> count_in "<DL><p>" [s] = 0 /\ count_in "</DL><p>" [s] = 0.
Proof.
  intro H. unfold count_in. cbn [flat_map]. rewrite app_nil_r.
  split; rewrite filter_none; try reflexivity; intros p Hp;
    apply (tag_free_piece s p H Hp).
Qed.

Lemma count_in_all_tag_free (l : list string) :
  Forall tag_free l -> count_in "<DL><p>" l = 0 /\ count_in "</DL><p>" l = 0.
Proof.
  induction 1 as [|s l Hs _ [IHo IHc]]; [split; reflexivity|].
  rewrite (count_in_cons "<DL><p>"), (count_in_cons "</DL><p>"), IHo, IHc.
  destruct (count_in_tag_free s Hs) as [-> ->]. split; reflexivity.
Qed.

(** A pattern that begins with [<] is not found before the first [<]. *)
Lemma contains_skip (p x y : string) :
  lacks "<" x = true ->
  contains (String "<" p) (x ++ y) = contains (String "<" p) y.
Proof.
  induction x as [|c x IH]; [reflexivity|].
  cbn [lacks]. intro H. apply andb_true_iff in H as [Hc Hx].
  apply negb_true_iff, Ascii.eqb_neq in Hc.
  change (String c x ++ y)%string with (String c (x ++ y)).
  cbn [contains]. rewrite (IH Hx).
  change (String.prefix (String "<" p) (String c (x ++ y)))
    with (if ascii_dec "<" c then String.prefix p (x ++ y) else false).
  destruct (ascii_dec "<" c) as [E | _]; [congruence | reflexivity].
Qed.

(** The list-open line counts for the open tag only, the list-close line
    for the close tag only. *)
Lemma count_in_open_line (level : nat) :
  count_in "<DL><p>" [(indent_of level ++ "<DL><p>")%string] = 1 /\
  count_in "</DL><p>" [(indent_of level ++ "<DL><p>")%string] = 0.
Proof.
  unfold count_in. cbn [flat_map]. rewrite app_nil_r.
  unfold lines. rewrite split_lacks
    by (rewrite lacks_app, lacks_indent; reflexivity).
  cbn [filter].
  rewrite !contains_skip by (apply lacks_indent; reflexivity).
  split; reflexivity.
Qed.

Lemma count_in_close_line (level : nat) :
  count_in "<DL><p>" [(indent_of level ++ "</DL><p>")%string] = 0 /\
  count_in "</DL><p>" [(indent_of level ++ "</DL><p>")%string] = 1.
Proof.
  unfold count_in. cbn [flat_map]. rewrite app_nil_r.
  unfold lines. rewrite split_lacks
    by (rewrite lacks_app, lacks_indent; reflexivity).
  cbn [filter].
  rewrite !contains_skip by (apply lacks_indent; reflexivity).
  split; reflexivity.
Qed.

Lemma rendered_folders_eq (n : string) (subs : list (string * BookmarkFolder))
    (marks : list string) :
  rendered_folders (mkFolder n subs marks) =
  (if String.eqb n "root" then 0 else 1)
  + list_sum (map (fun kv => rendered_folders (snd kv)) subs).
Proof.
  unfold rendered_folders. cbn [all_folders filter name].
  assert (H : forall l : list (string * BookmarkFolder),
             List.length (filter (fun g => negb (String.eqb (name g) "root"))
                            (flat_map (fun kv => all_folders (snd kv)) l)) =
             list_sum (map (fun kv => rendered_folders (snd kv)) l)).
  { induction l as [|kv l IH]; [reflexivity|].
    cbn [flat_map map]. rewrite filter_app, length_app, IH.
    unfold list_sum, rendered_folders. reflexivity. }
  destruct (String.eqb n "root"); cbn [negb List.length]; rewrite H; reflexivity.
Qed.

(** A rendered folder has one list-open and one list-close line for every
    folder in it that gets a header, when its bookmarks are tag-free. *)
Lemma generate_folder_html_counts (f : BookmarkFolder) :
  all_marks tag_free f ->
  forall level,
    count_in "<DL><p>" (generate_folder_html f level) = rendered_folders f /\
    count_in "</DL><p>" (generate_folder_html f level) = rendered_folders f.
Proof.
  induction f as [n subs marks IH] using BookmarkFolder_induction.
  intros Hm level. inversion Hm as [n' subs' marks' Hmarks Hsubs]; subst. clear Hm.
  rewrite generate_folder_html_eq, rendered_folders_eq.
  cbv zeta. cbn [name subfolders bookmarks].
  set (inner := if String.eqb n "root" then level else S level).
  assert (Hmk : Forall tag_free
                  (map (fun bookmark => (indent_of inner ++ bookmark)%string) marks)).
  { apply Forall_map. eapply Forall_impl; [|exact Hmarks].
    intros b Hb. apply indented_tag_free, Hb. }
  destruct (count_in_all_tag_free _ Hmk) as [Hmo Hmc].
  assert (Hkids : forall tag,
             (forall kv, In kv subs -> forall lv,
                 count_in tag (generate_folder_html (snd kv) lv) = rendered_folders (snd kv)) ->
             count_in tag
               (flat_map (fun subfolder => generate_folder_html subfolder inner)
                  (sorted (fun x => lower (name x)) (dict_values subs))) =
             list_sum (map (fun kv => rendered_folders (snd kv)) subs)).
  { intros tag Htag. rewrite count_in_flat_map. unfold sorted.
    rewrite <- (list_sum_Permutation _ _
                  (Permutation_map _ (sort_by_Permutation _ (dict_values subs)))).
    unfold dict_values. rewrite map_map. f_equal.
    apply map_ext_in. intros kv Hkv. apply Htag, Hkv. }
  assert (Hall : forall kv, In kv subs -> forall lv,
             count_in "<DL><p>" (generate_folder_html (snd kv) lv) = rendered_folders (snd kv) /\
             count_in "</DL><p>" (generate_folder_html (snd kv) lv) = rendered_folders (snd kv)).
  { intros kv Hkv lv. rewrite Forall_forall in IH, Hsubs.
    apply (IH kv Hkv), (Hsubs kv Hkv). }
  rewrite !count_in_app, Hmo, Hmc.
  rewrite (Hkids "<DL><p>") by (intros kv Hkv lv; apply (Hall kv Hkv lv)).
  rewrite (Hkids "</DL><p>") by (intros kv Hkv lv; apply (Hall kv Hkv lv)).
  destruct (String.eqb n "root").
  - split; unfold count_in; cbn [flat_map filter List.length]; lia.
  - rewrite (count_in_cons "<DL><p>"), (count_in_cons "</DL><p>").
    destruct (count_in_tag_free _ (folder_header_tag_free level n)) as [-> ->].
    destruct (count_in_open_line level) as [-> ->].
    destruct (count_in_close_line (inner - 1)) as [-> ->].
    split; lia.
Qed.

(** The builder keeps a property of the bookmarks that every new bookmark
    has. *)
Lemma add_path_all_marks (P : string -> Prop) (p : list string) (b : string) :
  P b -> forall f, all_marks P f -> all_marks P (add_path p b f).
Proof.
  intro Hb. induction p as [|k rest IH]; intros [n subs marks] H;
    inversion H as [n' subs' marks' Hmarks Hsubs]; subst;
    cbn [add_path name subfolders bookmarks].
  - constructor; [|exact Hsubs]. apply Forall_app. split; [exact Hmarks|].
    constructor; [exact Hb | constructor].
  - constructor; [exact Hmarks|].
    apply dict_update_Forall.
    + destruct (dict_mem k subs) eqn:E; cbn [negb]; [exact Hsubs|].
      rewrite (dict_set_new_shape _ _ _ E). apply Forall_app. split; [exact Hsubs|].
      constructor; [|constructor]. constructor; constructor.
    + intros v _ Hv. apply IH, Hv.
Qed.

Lemma add_rows_tag_free (pf : Platform) (rs : list Row) :
  forall root n,
    all_marks tag_free root -> all_marks tag_free (fst (add_rows pf rs root n)).
Proof.
  induction rs as [|r rs IH]; intros root n H; cbn [add_rows]; [exact H|].
  unfold bind. rewrite create_bookmark_html_eq.
  apply IH. apply add_path_all_marks; [apply entry_line_tag_free | exact H].
Qed.

Lemma create_folder_structure_tag_free (pf : Platform) (rs : list Row) (n : nat) :
  all_marks tag_free (fst (create_folder_structure pf rs n)).
Proof.
  unfold create_folder_structure. apply add_rows_tag_free.
  constructor; constructor.
Qed.

(** C10. The document rendered from the tree of any table has as many
    lines with the list-open tag as lines with the list-close tag: one for
    the fixed header or footer and one for every folder of the tree that
    gets a header. *)
Theorem document_is_list_balanced :
  forall (pf : Platform) (table : list Row) (n : nat),
    let root := fst (create_folder_structure pf table n) in
    let doc := generate_bookmarks_html root in
    count_lines_with "<DL><p>" doc = count_lines_with "</DL><p>" doc /\
    count_lines_with "<DL><p>" doc = 1 + rendered_folders root.
Proof.
  intros pf table n root doc.
  assert (Hdoc : forall tag,
             count_lines_with tag doc =
             count_in tag [header] + count_in tag (generate_folder_html root 0)
             + count_in tag [footer]).
  { intro tag. unfold count_lines_with, doc, generate_bookmarks_html.
    cbv zeta. cbn [app]. rewrite lines_join.
    change (List.length (filter (contains tag)
              (flat_map lines (header :: generate_folder_html root 0 ++ [footer]))))
      with (count_in tag (header :: generate_folder_html root 0 ++ [footer])).
    rewrite count_in_cons, count_in_app. lia. }
  destruct (generate_folder_html_counts root
              (create_folder_structure_tag_free pf table n) 0) as [Ho Hc].
  rewrite !Hdoc, Ho, Hc.
  change (count_in "<DL><p>" [header]) with 1.
  change (count_in "</DL><p>" [header]) with 0.
  change (count_in "<DL><p>" [footer]) with 0.
  change (count_in "</DL><p>" [footer]) with 1.
  split; lia.
Qed.

(* ================================================================== *)
(** ** The run never raises *)
(* ================================================================== *)

Lemma require_column_eq (c : string) (df : DataFrame) (w : World) :
  require_column c df w =
  if existsb (String.eqb c) (columns df) then (Ok tt, w) else (Raise (KeyError c), w).
Proof.
  unfold require_column. destruct (existsb (String.eqb c) (columns df)); reflexivity.
Qed.

(** The frame stage raises for the first missing column and builds the
    tree otherwise, reading the clock and nothing else. *)
Lemma create_folder_structure_df_eq (pf : Platform) (df : DataFrame) (w : World) :
  create_folder_structure_df pf df w =
  match missing_column df with
  | Some c => (Raise (KeyError c), w)
  | None =>
      (Ok (fst (create_folder_structure pf (rows df) (ticks w))),
       mkWorld (snd (create_folder_structure pf (rows df) (ticks w)))
               (stdout w) (files w))
  end.
Proof.
  unfold create_folder_structure_df, missing_column, run_bind, lift_clock, run_ret.
  rewrite require_column_eq.
  destruct (existsb (String.eqb "folder") (columns df)); cbn [negb]; [|reflexivity].
  destruct (rows df) as [|r rs] eqn:Hrows.
  - destruct (create_folder_structure pf [] (ticks w)); reflexivity.
  - rewrite !require_column_eq.
    destruct (existsb (String.eqb "title") (columns df)); cbn [negb]; [|reflexivity].
    rewrite !require_column_eq.
    destruct (existsb (String.eqb "url") (columns df)); cbn [negb]; [|reflexivity].
    rewrite !require_column_eq.
    destruct (existsb (String.eqb "created") (columns df)); cbn [negb]; [|reflexivity].
    destruct (create_folder_structure pf (r :: rs) (ticks w)); reflexivity.
Qed.

(** Whatever the body of the [try] statement does, the statement returns
    without an exception: a raised exception ends in its message, printed
    behind what the body had printed. *)
Lemma try_except_catches_everything (body : Run unit) (w : World) :
  exists w',
    try_except body
      (fun e => print ("Error converting bookmarks: " ++ str_of_exception e)) w =
    (Ok tt, w') /\
    match body w with
    | (Ok _, w1) => w' = w1
    | (Raise e, w1) =>
        stdout w' =
        stdout w1 ++ [("Error converting bookmarks: " ++ str_of_exception e)%string]
    end.
Proof.
  unfold try_except. destruct (body w) as [[[] | e] w1]; eexists; split; reflexivity.
Qed.

(** C9. Whatever the files and the table are, the run returns to its
    caller without an exception. When the input cannot be read or parsed,
    the table lacks a column, or the output cannot be written, the run
    prints one line, the error message with the text of the exception,
    prints no success line and records no written file. Otherwise it
    writes the document and prints the three lines of the summary. *)
Theorem run_reports_every_failure :
  forall (pf : Platform) (fs : FileSystem) (input_csv output_file : string)
         (w : World),
  exists w',
    convert_raindrop_to_browser_bookmarks pf fs input_csv output_file w = (Ok tt, w') /\
    match failure_of pf fs input_csv output_file (ticks w) with
    | Some e =>
        stdout w' =
          stdout w ++ [("Error converting bookmarks: " ++ str_of_exception e)%string] /\
        files w' = files w
    | None =>
        exists df,
          read_csv fs input_csv = Ok df /\
          let root := fst (create_folder_structure pf (rows df) (ticks w)) in
          files w' = dict_set output_file (generate_bookmarks_html root) (files w) /\
          stdout w' =
            stdout w ++
            [("Successfully converted bookmarks to " ++ output_file)%string;
             ("Total bookmarks processed: "
                ++ str_of_int (Z.of_nat (List.length (rows df))))%string;
             ("Number of folders: " ++ str_of_int (Z.of_nat (count_folders root)))%string]
    end.
Proof.
  intros pf fs input_csv output_file w.
  unfold convert_raindrop_to_browser_bookmarks, try_except, convert_body,
    failure_of, run_bind, run_read_csv.
  destruct (read_csv fs input_csv) as [df | e].
  2: { eexists. split; [reflexivity|]. split; reflexivity. }
  rewrite create_folder_structure_df_eq.
  destruct (missing_column df) as [c|].
  { eexists. split; [reflexivity|]. split; reflexivity. }
  unfold run_write, document_of. cbn [ticks stdout files].
  destruct (write_text fs output_file
              (generate_bookmarks_html
                 (fst (create_folder_structure pf (rows df) (ticks w))))) as [e|].
  { eexists. split; [reflexivity|]. split; reflexivity. }
  eexists. split; [reflexivity|].
  exists df. split; [reflexivity|]. cbv zeta. cbn [print ticks stdout files].
  split; [reflexivity|]. rewrite <- !app_assoc. reflexivity.
Qed.

(** Runs of the sample files: the missing input, the table without its
    folder column and the unwritable output each end in the one line of
    the error message. *)
Lemma sample_runs :
  convert_raindrop_to_browser_bookmarks sample_platform sample_files
    "missing.csv" "bookmarks.html" empty_world =
  (Ok tt, mkWorld 0 ["Error converting bookmarks: [Errno 2] No such file or directory"] [])
  /\
  convert_raindrop_to_browser_bookmarks sample_platform sample_files
    "nofolder.csv" "bookmarks.html" empty_world =
  (Ok tt, mkWorld 0 ["Error converting bookmarks: 'folder'"] [])
  /\
  convert_raindrop_to_browser_bookmarks sample_platform sample_files
    "Backups.csv" "/bookmarks.html" empty_world =
  (Ok tt, mkWorld 0 ["Error converting bookmarks: [Errno 13] Permission denied"] [])
  /\
  stdout (snd (convert_raindrop_to_browser_bookmarks sample_platform sample_files
                 "Backups.csv" "bookmarks.html" empty_world)) =
  ["Successfully converted bookmarks to bookmarks.html";
   "Total bookmarks processed: 1";
   "Number of folders: 2"].
Proof. repeat split. Qed.

(* ================================================================== *)
(** ** The sort step and the document *)
(* ================================================================== *)


(** The sort also changes the document when two sibling folders differ in
    case only, and when the clock advances between two rows that need it. *)
Lemma presort_changes_case_twins :
  generate_bookmarks_html
    (fst (create_folder_structure sample_platform [row_lower_x; row_upper_X] 0)) <>
  generate_bookmarks_html
    (fst (create_folder_structure_unsorted sample_platform
            [row_lower_x; row_upper_X] 0)).
Proof. vm_compute. discriminate. Qed.

Lemma presort_changes_clock_readings :
  generate_bookmarks_html
    (fst (create_folder_structure sample_platform [row_b_now; row_a_now] 0)) <>
  generate_bookmarks_html
    (fst (create_folder_structure_unsorted sample_platform [row_b_now; row_a_now] 0)).
Proof. vm_compute. discriminate. Qed.

(** *** Paths *)

Lemma path_eqb_eq (p q : list string) : path_eqb p q = true <-> p = q.
Proof.
  revert q. induction p as [|a p IH]; intros [|b q]; simpl;
    try (split; [discriminate | congruence]); [tauto|].
  rewrite andb_true_iff, String.eqb_eq, IH. split; [intros [-> ->] | intros [= -> ->]]; auto.
Qed.

Lemma path_eqb_refl (p : list string) : path_eqb p p = true.
Proof. apply path_eqb_eq. reflexivity. Qed.

Lemma is_prefix_refl (p : list string) : is_prefix p p = true.
Proof. induction p as [|a p IH]; simpl; [|rewrite String.eqb_refl]; auto. Qed.

Lemma path_eqb_is_prefix (p q : list string) :
  path_eqb q p = true -> is_prefix p q = true.
Proof. intro H. apply path_eqb_eq in H as ->. apply is_prefix_refl. Qed.

(** *** The bookmarks at a path after one walk *)

Lemma marks_at_cons (k : string) (p : list string) (f : BookmarkFolder) :
  marks_at (k :: p) f =
  match dict_get k (subfolders f) with
  | Some sub => marks_at p sub
  | None => None
  end.
Proof.
  unfold marks_at. cbn [folder_at].
  destruct (dict_get k (subfolders f)); reflexivity.
Qed.

Lemma marks_at_new_folder (p : list string) (n : string) :
  marks_at p (new_folder n) = match p with [] => Some [] | _ => None end.
Proof. destruct p; reflexivity. Qed.

Section DictOther.
Context {V : Type}.

Lemma dict_get_update_other (k k' : string) (f : V -> V) (d : list (string * V)) :
  String.eqb k' k = false ->
  dict_get k' (dict_update k f d) = dict_get k' d.
Proof.
  intro Hne. induction d as [|[k0 v0] d IH]; simpl; [reflexivity|].
  destruct (String.eqb k0 k) eqn:E; simpl.
  - apply String.eqb_eq in E. subst k0.
    rewrite String.eqb_sym, Hne. reflexivity.
  - rewrite IH. reflexivity.
Qed.

Lemma dict_get_set_other (k k' : string) (v : V) (d : list (string * V)) :
  String.eqb k' k = false ->
  dict_get k' (dict_set k v d) = dict_get k' d.
Proof.
  intro Hne. induction d as [|[k0 v0] d IH]; simpl.
  - rewrite String.eqb_sym, Hne. reflexivity.
  - destruct (String.eqb k0 k) eqn:E; simpl.
    + apply String.eqb_eq in E. subst k0.
      rewrite String.eqb_sym, Hne. reflexivity.
    + rewrite IH. reflexivity.
Qed.

Lemma dict_get_none (k : string) (d : list (string * V)) :
  dict_mem k d = false -> dict_get k d = None.
Proof.
  intro H. destruct (dict_get k d) eqn:G; [|reflexivity].
  assert (dict_mem k d = true) by (apply dict_mem_get; eauto). congruence.
Qed.
End DictOther.

(** Where the walk passes, a folder exists afterwards, with the bookmarks
    it had; where the walk ends, the bookmark is appended; everywhere else
    nothing changes. *)
Lemma marks_at_add_path (q : list string) (b : string) :
  forall (p : list string) (f : BookmarkFolder),
    marks_at p (add_path q b f) =
    if is_prefix p q
    then Some (marks_or_none (marks_at p f) ++ if path_eqb q p then [b] else [])
    else marks_at p f.
Proof.
  induction q as [|k rest IH]; intros p [n subs marks].
  - destruct p as [|k' p']; [reflexivity|].
    cbn [add_path is_prefix]. rewrite !marks_at_cons. reflexivity.
  - destruct p as [|k' p'].
    + cbn. rewrite app_nil_r. reflexivity.
    + cbn [add_path name subfolders bookmarks is_prefix path_eqb].
      rewrite !marks_at_cons. cbn [subfolders].
      destruct (String.eqb k' k) eqn:E.
      * apply String.eqb_eq in E. subst k'. rewrite String.eqb_refl.
        rewrite dict_get_update_same. cbn [andb].
        destruct (dict_mem k subs) eqn:M; cbn [negb].
        -- apply dict_mem_get in M as [old Hold]. rewrite Hold. cbn [option_map].
           apply IH.
        -- rewrite (dict_get_set_new _ _ _ M), (dict_get_none _ _ M).
           cbn [option_map]. rewrite IH, marks_at_new_folder.
           destruct p' as [|x p']; [reflexivity|].
           destruct (is_prefix (x :: p') rest); reflexivity.
      * cbn [andb]. rewrite dict_get_update_other by exact E.
        destruct (dict_mem k subs); cbn [negb]; [reflexivity|].
        rewrite dict_get_set_other by exact E. reflexivity.
Qed.

(** *** The bookmarks at a path after all the walks *)

Lemma filter_path_none (p : list string) (items : list (list string * string)) :
  existsb (fun it => is_prefix p (fst it)) items = false ->
  filter (fun it => path_eqb (fst it) p) items = [].
Proof.
  intro H. apply filter_none. intros it Hit.
  destruct (path_eqb (fst it) p) eqn:E; [|reflexivity].
  apply path_eqb_is_prefix in E.
  assert (existsb (fun it => is_prefix p (fst it)) items = true)
    by (apply existsb_exists; eauto).
  congruence.
Qed.

(** A folder exists at a path when a row is filed at or below it; its
    bookmarks are those it had and then the entries of the rows filed at
    that very path, in the order of the rows. *)
Lemma marks_at_add_items (items : list (list string * string)) :
  forall (p : list string) (f : BookmarkFolder),
    marks_at p (add_items items f) =
    if existsb (fun it => is_prefix p (fst it)) items
    then Some (marks_or_none (marks_at p f)
               ++ map snd (filter (fun it => path_eqb (fst it) p) items))
    else marks_at p f.
Proof.
  induction items as [|[q b] items IH]; intros p f; [reflexivity|].
  cbn [add_items existsb filter fst snd]. rewrite IH, marks_at_add_path.
  destruct (is_prefix p q) eqn:Hpq; cbn [orb marks_or_none].
  - destruct (existsb (fun it => is_prefix p (fst it)) items) eqn:Hex.
    + rewrite <- app_assoc. destruct (path_eqb q p); reflexivity.
    + rewrite (filter_path_none p items Hex).
      destruct (path_eqb q p); cbn [map]; reflexivity.
  - destruct (path_eqb q p) eqn:E; [|reflexivity].
    apply path_eqb_is_prefix in E. congruence.
Qed.

(** *** Rows and items *)



(** *** The stable sort keeps the rows of one folder in their order *)

Lemma ltb_irrefl (s : string) : String.ltb s s = false.
Proof.
  unfold String.ltb. destruct (String.compare s s) eqn:E; try reflexivity.
  pose proof (String.compare_antisym s s) as H. rewrite E in H. discriminate.
Qed.


Lemma filter_insert_by {A : Type} (lt : A -> A -> bool) (P : A -> bool) (x : A)
    (l : list A) :
  (forall y, In y l -> P x = true -> P y = true -> lt y x = false) ->
  filter P (insert_by lt x l) = filter P (x :: l).
Proof.
  induction l as [|y l IH]; intro H; [reflexivity|].
  cbn [insert_by]. destruct (lt y x) eqn:E; [|reflexivity].
  cbn [filter]. rewrite IH by (intros z Hz; apply H; right; exact Hz).
  cbn [filter]. destruct (P x) eqn:Px; [|reflexivity].
  destruct (P y) eqn:Py; [|reflexivity].
  rewrite (H y (or_introl eq_refl) eq_refl Py) in E. discriminate.
Qed.

Lemma filter_sort_by {A : Type} (lt : A -> A -> bool) (P : A -> bool) (l : list A) :
  (forall x y, In x l -> In y l -> P x = true -> P y = true -> lt y x = false) ->
  filter P (sort_by lt l) = filter P l.
Proof.
  induction l as [|x l IH]; intro H; [reflexivity|].
  cbn [sort_by]. rewrite filter_insert_by.
  - cbn [filter]. rewrite IH; [reflexivity|].
    intros a b Ha Hb. apply H; right; assumption.
  - intros y Hy. apply H; [left; reflexivity | right; apply sort_by_In in Hy; exact Hy].
Qed.


Lemma existsb_map {A B : Type} (f : B -> bool) (g : A -> B) (l : list A) :
  existsb f (map g l) = existsb (fun a => f (g a)) l.
Proof. induction l as [|x l IH]; simpl; [|rewrite IH]; reflexivity. Qed.


(** *** The order of the strings *)

Lemma ltb_lt (a b : string) :
  String.ltb a b = true <-> OrderedTypeEx.String_as_OT.lt a b.
Proof.
  rewrite <- OrderedTypeEx.String_as_OT.cmp_lt.
  unfold String.ltb, OrderedTypeEx.String_as_OT.cmp.
  destruct (String.compare a b); split; intro H; congruence.
Qed.

Lemma ltb_trans (a b c : string) :
  String.ltb a b = true -> String.ltb b c = true -> String.ltb a c = true.
Proof.
  rewrite !ltb_lt. apply OrderedTypeEx.String_as_OT.lt_trans.
Qed.

Lemma ltb_total (a b : string) :
  String.ltb a b = false -> String.ltb b a = false -> a = b.
Proof.
  unfold String.ltb. rewrite (String.compare_antisym b a).
  destruct (String.compare a b) eqn:E; cbn; try discriminate.
  intros _ _. apply String.compare_eq_iff, E.
Qed.

Lemma ltb_asym (a b : string) : String.ltb a b = true -> String.ltb b a = false.
Proof.
  intro H. destruct (String.ltb b a) eqn:E; [|reflexivity].
  pose proof (ltb_trans a b a H E) as Haa. rewrite ltb_irrefl in Haa. discriminate.
Qed.

(** *** Sorting by distinct keys forgets the order of the input *)

Section SortDistinct.
Context {A : Type} (key : A -> string).

Let lt (a b : A) : bool := String.ltb (key a) (key b).


End SortDistinct.


(** *** The subfolders in the order they are rendered in *)



(** *** Two trees with the same bookmarks at every path render alike *)





Lemma name_add_rows (pf : Platform) (rs : list Row) :
  forall root n, name (fst (add_rows pf rs root n)) = name root.
Proof.
  induction rs as [|r rs IH]; intros root n; [reflexivity|].
  cbn [add_rows]. unfold bind. rewrite create_bookmark_html_eq.
  rewrite IH. apply name_add_path.
Qed.



(* ================================================================== *)
(** ** More on the builder: what one walk does *)
(* ================================================================== *)

(** X1. After [add_to_folder_structure] the bookmark is the last entry of
    the folder its cell stands for, behind the entries that folder had; at
    every other path a folder that was there is still there with the same
    entries. *)
Theorem add_appends_and_keeps :
  forall (root : BookmarkFolder) (cell : option string) (b : string),
    let root' := add_to_folder_structure root cell b in
    marks_at (folders_of cell) root' =
      Some (marks_or_none (marks_at (folders_of cell) root) ++ [b]) /\
    (forall p l, p <> folders_of cell ->
                 marks_at p root = Some l -> marks_at p root' = Some l).
Proof.
  intros root cell b root'. unfold root', add_to_folder_structure. split.
  - rewrite marks_at_add_path, is_prefix_refl, path_eqb_refl. reflexivity.
  - intros p l Hne Hl. rewrite marks_at_add_path, Hl.
    destruct (is_prefix p (folders_of cell)); [|reflexivity].
    destruct (path_eqb (folders_of cell) p) eqn:E.
    + apply path_eqb_eq in E. congruence.
    + cbn [marks_or_none]. rewrite app_nil_r. reflexivity.
Qed.

Lemma split_length (c : ascii) (s : string) :
  List.length (split c s) = S (count_char c s).
Proof.
  induction s as [|x s IH]; [reflexivity|].
  cbn [split count_char]. destruct (Ascii.eqb x c).
  - cbn [List.length]. rewrite IH. reflexivity.
  - destruct (split c s) as [|p ps]; cbn [List.length] in *; [discriminate | exact IH].
Qed.

(** X2. A folder cell that is not empty stands for one folder name more
    than it has slashes: no piece between slashes is dropped, an empty one
    neither. *)
Theorem folder_depth_is_slashes_plus_one :
  forall p : string,
    p <> "" ->
    List.length (folders_of (Some p)) = S (count_char "/" p).
Proof.
  intros p Hne. unfold folders_of. destruct p as [|c r]; [congruence|].
  cbn [truthy]. rewrite length_map. apply split_length.
Qed.

Lemma folder_depth_is_slashes_plus_one_witness :
  List.length (folders_of (Some "A//B/")) = 4.
Proof.
  apply (folder_depth_is_slashes_plus_one "A//B/"). discriminate.
Defined.

(* ================================================================== *)
(** ** More on the builder: the tree of a table *)
(* ================================================================== *)

Lemma add_rows_row_items (pf : Platform) (rs : list Row) :
  forall root n, fst (add_rows pf rs root n) = add_items (row_items pf rs n) root.
Proof.
  induction rs as [|r rs IH]; intros root n; [reflexivity|].
  cbn [add_rows row_items]. unfold bind.
  destruct (create_bookmark_html pf (title_or_url r) (url r) (created r) n) as [b n'].
  cbn [add_items]. apply IH.
Qed.

Lemma row_items_paths (pf : Platform) (rs : list Row) :
  forall n, map fst (row_items pf rs n) = map (fun r => folders_of (folder r)) rs.
Proof.
  induction rs as [|r rs IH]; intro n; [reflexivity|].
  cbn [row_items map].
  destruct (create_bookmark_html pf (title_or_url r) (url r) (created r) n) as [b n'].
  cbn [map fst]. rewrite IH. reflexivity.
Qed.

Lemma marks_at_built (pf : Platform) (table : list Row) (n : nat) (p : list string) :
  let items := row_items pf (sort_values_folder table) n in
  marks_at p (fst (create_folder_structure pf table n)) =
  if existsb (fun it => is_prefix p (fst it)) items
  then Some (map snd (filter (fun it => path_eqb (fst it) p) items))
  else match p with [] => Some [] | _ => None end.
Proof.
  cbv zeta. unfold create_folder_structure.
  rewrite add_rows_row_items, marks_at_add_items, marks_at_new_folder.
  destruct p; reflexivity.
Qed.

Lemma existsb_prefix_rows (pf : Platform) (table : list Row) (n : nat) (p : list string) :
  existsb (fun it => is_prefix p (fst it)) (row_items pf (sort_values_folder table) n) = true
  <-> exists row, In row table /\ is_prefix p (folders_of (folder row)) = true.
Proof.
  rewrite <- (existsb_map (is_prefix p) fst), row_items_paths, existsb_map.
  rewrite existsb_exists. unfold sort_values_folder.
  split; intros [row [Hin Hp]]; exists row; split; try exact Hp.
  - apply sort_by_In in Hin. exact Hin.
  - apply sort_by_In. exact Hin.
Qed.

(** X3. The folders of the built tree are the beginnings of the rows'
    paths: below the root there is a folder at a path exactly when the
    path is not empty and some row of the table is filed at it or below
    it. *)
Theorem folders_are_prefixes_of_row_paths :
  forall (pf : Platform) (table : list Row) (n : nat) (p : list string),
    In p (folder_paths (fst (create_folder_structure pf table n))) <->
    p <> [] /\
    exists row, In row table /\ is_prefix p (folders_of (folder row)) = true.
Proof.
  intros pf table n p.
  set (root := fst (create_folder_structure pf table n)).
  assert (Hat : (exists f, folder_at p root = Some f) <-> marks_at p root <> None).
  { unfold marks_at. destruct (folder_at p root) as [f|]; cbn; split.
    - discriminate.
    - eauto.
    - intros [f H]. discriminate.
    - congruence. }
  assert (Hpaths : In p (folder_paths root) <->
                   p <> [] /\ exists f, folder_at p root = Some f).
  { split.
    - intro H. split.
      + apply folder_paths_head in H as [k [rest [-> _]]]. discriminate.
      + apply folder_paths_folder_at; [apply create_folder_structure_well_keyed | exact H].
    - intros [Hne [f Hf]]. apply (folder_at_folder_paths p root f Hne Hf). }
  rewrite Hpaths, Hat. unfold root. rewrite marks_at_built. cbv zeta.
  rewrite <- (existsb_prefix_rows pf table n p).
  destruct (existsb _ _); destruct p; split; intros [H1 H2]; split;
    congruence.
Qed.



(* ================================================================== *)
(** ** No entry is lost, none is made up *)
(* ================================================================== *)

Lemma all_bookmarks_eq (n : string) (subs : list (string * BookmarkFolder))
    (marks : list string) :
  all_bookmarks (mkFolder n subs marks) =
  marks ++ flat_map (fun kv => all_bookmarks (snd kv)) subs.
Proof.
  unfold all_bookmarks. cbn [all_folders flat_map bookmarks]. f_equal.
  induction subs as [|kv subs IH]; [reflexivity|].
  cbn [flat_map]. rewrite flat_map_app, IH. reflexivity.
Qed.

Lemma flat_map_dict_update_perm {B : Type} (g : BookmarkFolder -> list B)
    (k : string) (f : BookmarkFolder -> BookmarkFolder) (b : B)
    (d : list (string * BookmarkFolder)) :
  dict_mem k d = true ->
  (forall v, Permutation (g (f v)) (b :: g v)) ->
  Permutation (flat_map (fun kv => g (snd kv)) (dict_update k f d))
              (b :: flat_map (fun kv => g (snd kv)) d).
Proof.
  intros Hmem Hf. induction d as [|[k' v'] d IH]; [discriminate|].
  cbn [dict_mem] in Hmem. cbn [dict_update].
  destruct (String.eqb k' k); cbn [flat_map snd].
  - rewrite Hf. reflexivity.
  - cbn [orb] in Hmem. rewrite (IH Hmem). apply Permutation_sym, Permutation_middle.
Qed.

Lemma all_bookmarks_add_path (p : list string) (b : string) :
  forall f, Permutation (all_bookmarks (add_path p b f)) (b :: all_bookmarks f).
Proof.
  induction p as [|k rest IH]; intros [n subs marks];
    cbn [add_path name subfolders bookmarks]; rewrite !all_bookmarks_eq.
  - rewrite <- app_assoc. cbn [app].
    rewrite <- Permutation_middle. reflexivity.
  - rewrite (flat_map_dict_update_perm all_bookmarks k (add_path rest b) b).
    + rewrite <- Permutation_middle. constructor. apply Permutation_app_head.
      destruct (dict_mem k subs) eqn:E; cbn [negb]; [reflexivity|].
      rewrite (dict_set_new_shape _ _ _ E), flat_map_app.
      cbn. rewrite app_nil_r. reflexivity.
    + destruct (dict_mem k subs) eqn:E; cbn [negb]; [exact E | apply dict_mem_set].
    + exact IH.
Qed.

Lemma all_bookmarks_add_items (items : list (list string * string)) :
  forall f,
    Permutation (all_bookmarks (add_items items f)) (all_bookmarks f ++ map snd items).
Proof.
  induction items as [|[p b] items IH]; intro f; cbn [add_items map snd].
  - rewrite app_nil_r. reflexivity.
  - rewrite IH, all_bookmarks_add_path. cbn [app]. apply Permutation_middle.
Qed.

Lemma row_items_length (pf : Platform) (rs : list Row) :
  forall n, List.length (row_items pf rs n) = List.length rs.
Proof.
  intro n. rewrite <- (length_map fst), row_items_paths, length_map. reflexivity.
Qed.

(** X5. The entry lines in the built tree are the entry lines of the rows,
    each as often as it was made: no row is lost and no entry is there
    twice for one row. The tree holds as many entries as the table has
    rows. *)
Theorem tree_holds_one_entry_per_row :
  forall (pf : Platform) (table : list Row) (n : nat),
    let root := fst (create_folder_structure pf table n) in
    Permutation (all_bookmarks root)
                (map snd (row_items pf (sort_values_folder table) n)) /\
    List.length (all_bookmarks root) = List.length table.
Proof.
  intros pf table n root.
  assert (H : Permutation (all_bookmarks root)
                (map snd (row_items pf (sort_values_folder table) n))).
  { unfold root, create_folder_structure. rewrite add_rows_row_items.
    apply (all_bookmarks_add_items _ (new_folder "root")). }
  split; [exact H|].
  rewrite (Permutation_length H), length_map, row_items_length.
  symmetry. apply Permutation_length, sort_by_Permutation.
Qed.

(* ================================================================== *)
(** ** How often the clock is read *)
(* ================================================================== *)





(* ================================================================== *)
(** ** A table without folders *)
(* ================================================================== *)

Lemma sort_values_folder_no_folder (table : list Row) :
  Forall (fun r => folder r = None) table -> sort_values_folder table = table.
Proof.
  unfold sort_values_folder.
  induction 1 as [|r rs Hr Hrs IH]; [reflexivity|].
  cbn [sort_by]. rewrite IH.
  destruct rs as [|y rs']; [reflexivity|].
  cbn [insert_by]. inversion Hrs as [|? ? Hy _]; subst.
  rewrite Hy. reflexivity.
Qed.

Lemma add_items_at_root (items : list (list string * string)) :
  Forall (fun it => fst it = []) items ->
  forall n subs marks,
    add_items items (mkFolder n subs marks) = mkFolder n subs (marks ++ map snd items).
Proof.
  induction 1 as [|[p b] items Hp _ IH]; intros n subs marks; cbn [add_items map snd].
  - rewrite app_nil_r. reflexivity.
  - cbn [fst] in Hp. subst p. cbn [add_path name subfolders bookmarks].
    rewrite IH, <- app_assoc. reflexivity.
Qed.

(** X7. A table in which no row has a folder is rendered flat: the sort
    leaves the rows in their order, the tree is the root with no folder
    below it, and the document is the header, the entry lines of the rows
    in the order of the table, not indented, and the footer. *)
Theorem table_without_folders_is_flat :
  forall (pf : Platform) (table : list Row) (n : nat),
    Forall (fun r => folder r = None) table ->
    let entries := map snd (row_items pf table n) in
    fst (create_folder_structure pf table n) = mkFolder "root" [] entries /\
    generate_bookmarks_html (fst (create_folder_structure pf table n)) =
    join nl ([header] ++ entries ++ [footer]).
Proof.
  intros pf table n Hall entries.
  assert (Htree : fst (create_folder_structure pf table n) = mkFolder "root" [] entries).
  { unfold create_folder_structure.
    rewrite (sort_values_folder_no_folder table Hall), add_rows_row_items.
    unfold new_folder. rewrite add_items_at_root; [reflexivity|].
    apply Forall_forall. intros it Hit.
    assert (Hp : In (fst it) (map fst (row_items pf table n))) by (apply in_map, Hit).
    rewrite row_items_paths in Hp. apply in_map_iff in Hp as [r [<- Hr]].
    rewrite Forall_forall in Hall. rewrite (Hall r Hr). reflexivity. }
  split; [exact Htree|].
  rewrite Htree. unfold generate_bookmarks_html. cbv zeta. do 3 f_equal.
  cbn. rewrite app_nil_r. apply map_id.
Qed.

Lemma table_without_folders_is_flat_witness :
  let entries := map snd (row_items sample_platform [row_flat_1; row_flat_2] 0) in
  fst (create_folder_structure sample_platform [row_flat_1; row_flat_2] 0) =
    mkFolder "root" [] entries /\
  generate_bookmarks_html
    (fst (create_folder_structure sample_platform [row_flat_1; row_flat_2] 0)) =
  join nl ([header] ++ entries ++ [footer]).
Proof.
  apply (table_without_folders_is_flat sample_platform [row_flat_1; row_flat_2] 0).
  repeat constructor.
Defined.

(* ================================================================== *)
(** ** The folder count grows with the paths *)
(* ================================================================== *)

Lemma count_folders_eq (n : string) (subs : list (string * BookmarkFolder))
    (marks : list string) :
  count_folders (mkFolder n subs marks) =
  List.length subs + list_sum (map (fun kv => count_folders (snd kv)) subs).
Proof. reflexivity. Qed.

Lemma sum_dict_update_bounds (k : string) (f : BookmarkFolder -> BookmarkFolder)
    (c : nat) (d : list (string * BookmarkFolder)) :
  (forall v, count_folders v <= count_folders (f v) <= count_folders v + c) ->
  list_sum (map (fun kv => count_folders (snd kv)) d)
  <= list_sum (map (fun kv => count_folders (snd kv)) (dict_update k f d))
  <= list_sum (map (fun kv => count_folders (snd kv)) d) + c.
Proof.
  intro Hf. induction d as [|[k' v'] d IH]; cbn [dict_update map]; [cbn; lia|].
  destruct (String.eqb k' k); cbn [map snd]; unfold list_sum in *; cbn [fold_right].
  - specialize (Hf v'). lia.
  - lia.
Qed.

Lemma dict_update_length {V : Type} (k : string) (f : V -> V) (d : list (string * V)) :
  List.length (dict_update k f d) = List.length d.
Proof.
  rewrite <- (length_map fst), dict_update_keys, length_map. reflexivity.
Qed.

Lemma count_folders_add_path (p : list string) (b : string) :
  forall f,
    count_folders f <= count_folders (add_path p b f) <= count_folders f + List.length p.
Proof.
  induction p as [|k rest IH]; intros [n subs marks];
    cbn [add_path name subfolders bookmarks]; rewrite !count_folders_eq.
  - cbn [List.length]. lia.
  - rewrite dict_update_length.
    pose proof (sum_dict_update_bounds k (add_path rest b) (List.length rest)
                  (if negb (dict_mem k subs)
                   then dict_set k (new_folder k) subs else subs) IH) as H.
    destruct (dict_mem k subs) eqn:E; cbn [negb] in *; cbn [List.length].
    + lia.
    + rewrite (dict_set_new_shape _ _ _ E) in *.
      rewrite map_app, list_sum_app, length_app in *. cbn in *. lia.
Qed.

(** X8. A row never takes a folder away, and it adds at most as many
    folders as its path has names. The folder count of a table is at most
    the number of folder names in all its cells. *)
Theorem folder_count_is_bounded_by_the_paths :
  (forall (root : BookmarkFolder) (cell : option string) (b : string),
      count_folders root
      <= count_folders (add_to_folder_structure root cell b)
      <= count_folders root + List.length (folders_of cell)) /\
  (forall (pf : Platform) (table : list Row) (n : nat),
      count_folders (fst (create_folder_structure pf table n))
      <= list_sum (map (fun r => List.length (folders_of (folder r))) table)).
Proof.
  split.
  - intros root cell b. apply count_folders_add_path.
  - intros pf table n. unfold create_folder_structure.
    rewrite add_rows_row_items.
    assert (H : forall items f,
               count_folders (add_items items f)
               <= count_folders f + list_sum (map (fun it => List.length (fst it)) items)).
    { induction items as [|[p b] items IH]; intro f; cbn [add_items map fst].
      - cbn. lia.
      - specialize (IH (add_path p b f)).
        pose proof (count_folders_add_path p b f). unfold list_sum in *.
        cbn [fold_right]. lia. }
    specialize (H (row_items pf (sort_values_folder table) n) (new_folder "root")).
    rewrite <- (map_map fst (@List.length string)), row_items_paths, map_map in H.
    unfold sort_values_folder in H.
    rewrite <- (list_sum_Permutation _ _
                  (Permutation_map (fun r => List.length (folders_of (folder r)))
                     (sort_by_Permutation
                        (fun a b => cell_ltb (folder a) (folder b)) table))) in H.
    cbn in H. exact H.
Qed.

(* ================================================================== *)
(** ** Indentation *)
(* ================================================================== *)

Lemma map_flat_map_In {A B C : Type} (h : B -> C) (g : A -> list B)
    (g' : A -> list C) (l : list A) :
  (forall x, In x l -> g' x = map h (g x)) ->
  flat_map g' l = map h (flat_map g l).
Proof.
  induction l as [|x l IH]; intro H; [reflexivity|].
  cbn [flat_map]. rewrite map_app, <- IH, <- H.
  - reflexivity.
  - left. reflexivity.
  - intros y Hy. apply H. right. exact Hy.
Qed.

(** X9. Rendering a folder one level deeper puts four spaces in front of
    every one of its lines and changes nothing else. *)
Theorem one_level_deeper_is_four_spaces :
  forall (f : BookmarkFolder) (level : nat),
    generate_folder_html f (S level) =
    map (fun line => ("    " ++ line)%string) (generate_folder_html f level).
Proof.
  induction f as [n subs marks IH] using BookmarkFolder_induction.
  intro level. rewrite !generate_folder_html_eq.
  cbn [name subfolders bookmarks]. cbv zeta.
  assert (Hkids : forall l,
             flat_map (fun subfolder => generate_folder_html subfolder (S l))
               (sorted (fun x => lower (name x)) (dict_values subs)) =
             map (fun line => ("    " ++ line)%string)
               (flat_map (fun subfolder => generate_folder_html subfolder l)
                  (sorted (fun x => lower (name x)) (dict_values subs)))).
  { intro l. apply map_flat_map_In. intros sub Hsub.
    apply sort_by_In in Hsub. apply in_map_iff in Hsub as [kv [<- Hkv]].
    rewrite Forall_forall in IH. apply (IH kv Hkv). }
  destruct (String.eqb n "root").
  - rewrite !app_nil_r. cbn [app]. rewrite map_app, map_map, Hkids. reflexivity.
  - rewrite !map_app, map_map, Hkids. cbn [app map].
    replace (S (S level) - 1) with (S level) by lia.
    replace (S level - 1) with level by lia.
    reflexivity.
Qed.

(* ================================================================== *)
(** ** The order of the subfolders in the document *)
(* ================================================================== *)

Section SortSorted.
Context {A : Type} (key : A -> string).

Let lt (a b : A) : bool := String.ltb (key a) (key b).
Let le (a b : A) : Prop := String.ltb (key b) (key a) = false.

Lemma key_le_trans (a b c : A) : le a b -> le b c -> le a c.
Proof.
  unfold le. intros Hab Hbc.
  destruct (String.ltb (key c) (key a)) eqn:Hca; [|reflexivity].
  destruct (String.ltb (key a) (key b)) eqn:E.
  - rewrite (ltb_trans _ _ _ Hca E) in Hbc. discriminate.
  - rewrite (ltb_total _ _ E Hab) in Hca. congruence.
Qed.

Lemma insert_by_StronglySorted (x : A) (l : list A) :
  StronglySorted le l -> StronglySorted le (insert_by lt x l).
Proof.
  induction 1 as [|y r Hr IH Hy]; cbn [insert_by].
  - repeat constructor.
  - destruct (lt y x) eqn:E.
    + constructor; [exact IH|].
      apply Forall_forall. intros z Hz. apply insert_by_In in Hz as [-> | Hz].
      * apply ltb_asym, E.
      * rewrite Forall_forall in Hy. apply Hy, Hz.
    + constructor; [constructor; assumption|].
      constructor; [exact E|].
      eapply Forall_impl; [|exact Hy]. intros z Hz.
      apply (key_le_trans x y z); [exact E | exact Hz].
Qed.

Lemma sort_by_StronglySorted (l : list A) : StronglySorted le (sort_by lt l).
Proof.
  induction l as [|x l IH]; cbn [sort_by]; [constructor|].
  apply insert_by_StronglySorted, IH.
Qed.
End SortSorted.

(** X10. The subfolders of a folder are rendered each once, in ascending
    order of their lower-cased names; subfolders whose lower-cased names
    are equal are rendered in the order they were put into the dict. *)
Theorem subfolders_are_rendered_in_order :
  forall (f : BookmarkFolder),
    let order := sorted (fun x => lower (name x)) (dict_values (subfolders f)) in
    Permutation (dict_values (subfolders f)) order /\
    StronglySorted
      (fun a b => String.ltb (lower (name b)) (lower (name a)) = false) order /\
    (forall low,
        filter (fun x => String.eqb (lower (name x)) low) order =
        filter (fun x => String.eqb (lower (name x)) low) (dict_values (subfolders f))) /\
    (forall level,
        let inner := if String.eqb (name f) "root" then level else S level in
        exists before after,
          generate_folder_html f level =
          before ++ flat_map (fun sub => generate_folder_html sub inner) order ++ after).
Proof.
  intros f order. unfold order, sorted. split; [|split; [|split]].
  - apply sort_by_Permutation.
  - apply (sort_by_StronglySorted (fun x => lower (name x))).
  - intro low. apply filter_sort_by. intros x y _ _ Hx Hy.
    apply String.eqb_eq in Hx, Hy. rewrite Hx, Hy. apply ltb_irrefl.
  - intro level. cbv zeta. rewrite generate_folder_html_eq. cbv zeta.
    eexists. eexists. rewrite app_assoc. reflexivity.
Qed.

(* ================================================================== *)
(** ** Folder names are trimmed pieces of the cells *)
(* ================================================================== *)

Lemma rstrip_idem (s : string) : rstrip (rstrip s) = rstrip s.
Proof.
  induction s as [|c r IH]; [reflexivity|].
  cbn [rstrip]. destruct (rstrip r) as [|c' r'] eqn:E.
  - destruct (isspace c) eqn:Hc; [reflexivity|].
    cbn [rstrip]. rewrite Hc. reflexivity.
  - cbn [rstrip] in *. rewrite IH. reflexivity.
Qed.

Lemma lstrip_head (s : string) :
  lstrip s = "" \/ exists c r, lstrip s = String c r /\ isspace c = false.
Proof.
  induction s as [|c r IH]; [left; reflexivity|].
  cbn [lstrip]. destruct (isspace c) eqn:E; [exact IH|].
  right. exists c, r. split; [reflexivity | exact E].
Qed.

Lemma strip_idem (s : string) : strip (strip s) = strip s.
Proof.
  unfold strip.
  assert (H : lstrip (rstrip (lstrip s)) = rstrip (lstrip s)).
  { destruct (lstrip_head s) as [-> | [c [r [-> Hc]]]]; [reflexivity|].
    cbn [rstrip]. destruct (rstrip r); rewrite ?Hc; cbn [lstrip]; rewrite Hc; reflexivity. }
  rewrite H. apply rstrip_idem.
Qed.

Lemma lacks_lstrip (c : ascii) (s : string) : lacks c s = true -> lacks c (lstrip s) = true.
Proof.
  induction s as [|x r IH]; [reflexivity|].
  cbn [lstrip]. destruct (isspace x); [|trivial].
  cbn [lacks]. intro H. apply andb_true_iff in H as [_ H]. apply IH, H.
Qed.

Lemma lacks_rstrip (c : ascii) (s : string) : lacks c s = true -> lacks c (rstrip s) = true.
Proof.
  induction s as [|x r IH]; [reflexivity|].
  cbn [lacks rstrip]. intro H. apply andb_true_iff in H as [Hx Hr].
  specialize (IH Hr). destruct (rstrip r).
  - destruct (isspace x); [reflexivity|]. cbn [lacks]. rewrite Hx. reflexivity.
  - cbn [lacks] in *. rewrite Hx. exact IH.
Qed.

Lemma split_pieces_lack (c : ascii) (s : string) :
  Forall (fun p => lacks c p = true) (split c s).
Proof.
  induction s as [|x r IH]; [repeat constructor|].
  cbn [split]. destruct (Ascii.eqb x c) eqn:E.
  - constructor; [reflexivity | exact IH].
  - destruct (split c r) as [|p ps]; [repeat constructor; cbn; rewrite E; reflexivity|].
    inversion IH as [|? ? Hp Hps]; subst.
    constructor; [|exact Hps]. cbn [lacks]. rewrite E, Hp. reflexivity.
Qed.

(** The names a folder cell stands for are trimmed and have no slash. *)
Lemma folders_of_clean (cell : option string) :
  Forall (fun s => strip s = s /\ lacks "/" s = true) (folders_of cell).
Proof.
  unfold folders_of. destruct cell as [p|]; [|constructor].
  destruct (truthy p); [|constructor].
  apply Forall_map. eapply Forall_impl; [|apply split_pieces_lack].
  intros s Hs. split; [apply strip_idem|].
  unfold strip. apply lacks_rstrip, lacks_lstrip, Hs.
Qed.

Lemma add_path_names_below (P : string -> Prop) (p : list string) (b : string) :
  Forall P p -> forall f, names_below P f -> names_below P (add_path p b f).
Proof.
  induction 1 as [|k rest Hk _ IH]; intros [n subs marks] H;
    inversion H as [? ? ? Hsubs]; subst; cbn [add_path name subfolders bookmarks].
  - constructor. exact Hsubs.
  - constructor. apply dict_update_Forall.
    + destruct (dict_mem k subs) eqn:E; cbn [negb]; [exact Hsubs|].
      rewrite (dict_set_new_shape _ _ _ E). apply Forall_app. split; [exact Hsubs|].
      constructor; [|constructor]. split; [exact Hk | constructor; constructor].
    + intros v _ [Hn Hv]. cbn [snd] in *. split.
      * rewrite name_add_path. exact Hn.
      * apply IH, Hv.
Qed.

Lemma names_below_all_folders (P : string -> Prop) (f : BookmarkFolder) :
  names_below P f -> Forall (fun g => P (name g)) (non_root_folders f).
Proof.
  induction f as [n subs marks IH] using BookmarkFolder_induction.
  intro H. inversion H as [? ? ? Hsubs]; subst.
  unfold non_root_folders. cbn [all_folders tl].
  induction subs as [|[k sub] subs IHs]; [constructor|].
  inversion IH as [|? ? Hsub IHrest]; subst.
  inversion Hsubs as [|? ? [Hn Hb] Hrest]; subst.
  cbn [flat_map snd] in *. apply Forall_app. split.
  - specialize (Hsub Hb). unfold non_root_folders in Hsub.
    destruct sub as [n' subs' marks']. cbn [all_folders tl] in *.
    constructor; [exact Hn | exact Hsub].
  - apply IHs; [exact IHrest | constructor; exact Hrest | exact Hrest].
Qed.

(** X11. In the tree built from any table every folder below the root has
    a name without white space at its ends and without a slash. *)
Theorem folder_names_are_trimmed :
  forall (pf : Platform) (table : list Row) (n : nat),
    Forall (fun f => strip (name f) = name f /\ lacks "/" (name f) = true)
           (non_root_folders (fst (create_folder_structure pf table n))).
Proof.
  intros pf table n.
  apply (names_below_all_folders (fun s => strip s = s /\ lacks "/" s = true)).
  unfold create_folder_structure. rewrite add_rows_row_items.
  assert (H : forall items f,
             Forall (fun it => Forall (fun s => strip s = s /\ lacks "/" s = true) (fst it)) items ->
             names_below (fun s => strip s = s /\ lacks "/" s = true) f ->
             names_below (fun s => strip s = s /\ lacks "/" s = true) (add_items items f)).
  { induction items as [|[p b] items IH]; intros f Hitems Hf; [exact Hf|].
    inversion Hitems as [|? ? Hp Hrest]; subst. cbn [add_items].
    apply IH; [exact Hrest|]. apply add_path_names_below; assumption. }
  apply H.
  - apply Forall_forall. intros it Hit.
    assert (Hp : In (fst it) (map fst (row_items pf (sort_values_folder table) n)))
      by (apply in_map, Hit).
    rewrite row_items_paths in Hp. apply in_map_iff in Hp as [r [<- _]].
    apply folders_of_clean.
  - constructor. constructor.
Qed.

(* ================================================================== *)
(** ** The entry line keeps its parts apart *)
(* ================================================================== *)

Lemma append_cancel_l (a x y : string) : (a ++ x = a ++ y)%string -> x = y.
Proof.
  induction a as [|c a IH]; cbn; [trivial|].
  intro H. injection H as H. apply IH, H.
Qed.

(** Two strings that are cut at the first occurrence of a character are
    equal part by part. *)
Lemma append_split_at (c : ascii) (x x' r r' : string) :
  lacks c x = true -> lacks c x' = true ->
  (x ++ String c r = x' ++ String c r')%string -> x = x' /\ r = r'.
Proof.
  revert x'. induction x as [|a x IH]; intros [|a' x'] Hx Hx' H; cbn in *.
  - injection H as ->. split; reflexivity.
  - injection H as <- _. rewrite Ascii.eqb_refl in Hx'. discriminate.
  - injection H as -> _. rewrite Ascii.eqb_refl in Hx. discriminate.
  - injection H as <- H.
    apply andb_true_iff in Hx as [_ Hx]. apply andb_true_iff in Hx' as [_ Hx'].
    destruct (IH x' Hx Hx' H) as [-> ->]. split; reflexivity.
Qed.

Ltac escape_cases c :=
  unfold escape_char;
  destruct (Ascii.eqb_spec c "&"); [subst c|];
  [|destruct (Ascii.eqb_spec c "<"); [subst c|];
    [|destruct (Ascii.eqb_spec c ">"); [subst c|];
      [|destruct (Ascii.eqb_spec c dquote); [subst c|];
        [|destruct (Ascii.eqb_spec c "'"); [subst c|]]]]].

Lemma escape_char_inj (c1 c2 : ascii) (x y : string) :
  (escape_char c1 ++ x = escape_char c2 ++ y)%string -> c1 = c2 /\ x = y.
Proof.
  escape_cases c1; escape_cases c2; cbn; intro H;
    first [ discriminate H
          | injection H as H; split; [reflexivity | exact H]
          | injection H as H1 H2; subst; split; [reflexivity | reflexivity]
          | injection H as H1 H2; congruence ].
Qed.

(** [html.escape] loses nothing: two texts with the same escaped form are
    the same text. *)
Lemma escape_inj (s1 s2 : string) : escape s1 = escape s2 -> s1 = s2.
Proof.
  revert s2. induction s1 as [|c1 r1 IH]; intros [|c2 r2] H; cbn [escape] in H.
  - reflexivity.
  - exfalso. revert H. escape_cases c2; cbn; discriminate.
  - exfalso. revert H. escape_cases c1; cbn; discriminate.
  - apply escape_char_inj in H as [-> H]. rewrite (IH r2 H). reflexivity.
Qed.

Lemma str_of_int_inj (a b : Z) : str_of_int a = str_of_int b -> a = b.
Proof.
  unfold str_of_int. intro H.
  assert (Hnil : forall z, Z.to_int z <> Decimal.Pos Decimal.Nil /\
                           Z.to_int z <> Decimal.Neg Decimal.Nil).
  { intros [|p|p]; cbn; split; try discriminate; intro E; injection E;
      apply DecimalPos.Unsigned.to_uint_nonnil. }
  assert (E : Some (Z.to_int a) = Some (Z.to_int b)).
  { rewrite <- (NilZero.isi (Z.to_int a)), <- (NilZero.isi (Z.to_int b));
      try apply Hnil. rewrite H. reflexivity. }
  injection E as E. rewrite <- (DecimalZ.of_to a), <- (DecimalZ.of_to b), E.
  reflexivity.
Qed.

(** None of the characters that end an attribute or open a tag is left in
    an escaped text. *)
Lemma lacks_escape (c : ascii) (s : string) :
  In c ["<"; ">"; dquote; "'"]%char -> lacks c (escape s) = true.
Proof.
  intro Hc. induction s as [|x s IH]; [reflexivity|].
  cbn [escape]. rewrite lacks_app, IH, andb_true_r.
  cbn in Hc. destruct Hc as [<- | [<- | [<- | [<- | []]]]];
    escape_cases x; try reflexivity; cbn [lacks];
    match goal with
    | |- context [Ascii.eqb x ?k] =>
        destruct (Ascii.eqb_spec x k) as [E | E]; [exfalso; auto | reflexivity]
    end.
Qed.

Lemma lacks_uint (c : ascii) (d : Decimal.uint) :
  forallb (fun k => negb (Ascii.eqb k c))
    ["0"; "1"; "2"; "3"; "4"; "5"; "6"; "7"; "8"; "9"]%char = true ->
  lacks c (NilEmpty.string_of_uint d) = true.
Proof.
  cbn [forallb]. rewrite !andb_true_iff.
  intros [H0 [H1 [H2 [H3 [H4 [H5 [H6 [H7 [H8 [H9 _]]]]]]]]]].
  induction d; cbn [NilEmpty.string_of_uint lacks]; rewrite ?IHd, ?andb_true_r; trivial.
Qed.

Lemma lacks_str_of_int (c : ascii) (n : Z) :
  forallb (fun k => negb (Ascii.eqb k c))
    ["0"; "1"; "2"; "3"; "4"; "5"; "6"; "7"; "8"; "9"; "-"]%char = true ->
  lacks c (str_of_int n) = true.
Proof.
  intro H.
  assert (Hd : forallb (fun k => negb (Ascii.eqb k c))
                 ["0"; "1"; "2"; "3"; "4"; "5"; "6"; "7"; "8"; "9"]%char = true).
  { cbn [forallb] in *. rewrite !andb_true_iff in *. tauto. }
  assert (H0 : negb (Ascii.eqb "0" c) = true).
  { cbn [forallb] in H. rewrite !andb_true_iff in H. tauto. }
  assert (Hm : negb (Ascii.eqb "-" c) = true).
  { cbn [forallb] in H. rewrite !andb_true_iff in H. tauto. }
  assert (Hu : forall d, lacks c (NilZero.string_of_uint d) = true).
  { intro d. unfold NilZero.string_of_uint.
    destruct d; try (apply (lacks_uint c _ Hd)).
    cbn [lacks]. rewrite H0. reflexivity. }
  unfold str_of_int, NilZero.string_of_int.
  destruct (Z.to_int n) as [d | d]; [apply Hu|].
  cbn [lacks]. rewrite Hm. apply Hu.
Qed.

(** X12. The entry line tells its bookmark: two calls of
    [create_bookmark_html] that give the same line had the same url, the
    same title and the same timestamp. *)
Theorem entry_line_determines_bookmark :
  forall (pf : Platform) (t1 u1 : string) (c1 : option string) (n1 : nat)
         (t2 u2 : string) (c2 : option string) (n2 : nat),
    fst (create_bookmark_html pf t1 u1 c1 n1) =
    fst (create_bookmark_html pf t2 u2 c2 n2) ->
    u1 = u2 /\ t1 = t2 /\
    fst (add_date_of pf c1 n1) = fst (add_date_of pf c2 n2).
Proof.
  intros pf t1 u1 c1 n1 t2 u2 c2 n2 H.
  rewrite !create_bookmark_html_eq in H. cbn [fst] in H.
  set (d1 := fst (add_date_of pf c1 n1)) in *.
  set (d2 := fst (add_date_of pf c2 n2)) in *.
  unfold entry_line in H.
  apply (append_cancel_l "<DT><A HREF=") in H.
  apply (append_cancel_l q) in H.
  apply (append_split_at dquote) in H as [Hu H];
    try (apply lacks_escape; cbn; tauto).
  apply (append_cancel_l " ADD_DATE=") in H.
  apply (append_cancel_l q) in H.
  apply (append_split_at dquote) in H as [Hd H];
    try (apply lacks_str_of_int; reflexivity).
  apply (append_cancel_l ">") in H.
  apply (append_split_at "<" _ _ "/A>" "/A>") in H as [Ht _];
    try (apply lacks_escape; cbn; tauto).
  split; [apply escape_inj, Hu|]. split; [apply escape_inj, Ht|].
  apply str_of_int_inj, Hd.
Qed.

Lemma entry_line_determines_bookmark_witness :
  "http://x" = "http://x" /\ "T" = "T" /\
  fst (add_date_of sample_platform (Some "2024-01-01T00:00:00Z") 0) =
  fst (add_date_of sample_platform (Some "2024-01-01T01:00:00+01:00") 5).
Proof.
  apply (entry_line_determines_bookmark sample_platform
           "T" "http://x" (Some "2024-01-01T00:00:00Z") 0
           "T" "http://x" (Some "2024-01-01T01:00:00+01:00") 5).
  reflexivity.
Defined.

Lemma count_char_app (c : ascii) (x y : string) :
  count_char c (x ++ y) = count_char c x + count_char c y.
Proof.
  induction x as [|a x IH]; [reflexivity|].
  cbn [append count_char]. rewrite IH. lia.
Qed.

Lemma lacks_count_char (c : ascii) (s : string) :
  lacks c s = true -> count_char c s = 0.
Proof.
  induction s as [|a s IH]; [reflexivity|].
  cbn [lacks count_char]. intro H. apply andb_true_iff in H as [Ha Hs].
  apply negb_true_iff in Ha. rewrite Ha, (IH Hs). reflexivity.
Qed.

Lemma count_char_entry_line (u t : string) (d : Z) :
  count_char "<" (entry_line (escape u) d (escape t)) = 3 /\
  count_char ">" (entry_line (escape u) d (escape t)) = 3 /\
  count_char dquote (entry_line (escape u) d (escape t)) = 4.
Proof.
  unfold entry_line. rewrite !count_char_app.
  rewrite !(lacks_count_char _ (escape u)) by (apply lacks_escape; cbn; tauto).
  rewrite !(lacks_count_char _ (escape t)) by (apply lacks_escape; cbn; tauto).
  rewrite !(lacks_count_char _ (str_of_int _)) by (apply lacks_str_of_int; reflexivity).
  repeat split.
Qed.

(** X13. Whatever the url and the title are, the entry line has exactly
    the three opening and three closing angle brackets of its own tags and
    exactly the four double quotes of its two attributes: text from the
    table opens no tag and ends no attribute. *)
Theorem entry_line_has_only_its_own_markup :
  forall (pf : Platform) (t u : string) (c : option string) (n : nat),
    let line := fst (create_bookmark_html pf t u c n) in
    count_char "<" line = 3 /\
    count_char ">" line = 3 /\
    count_char dquote line = 4.
Proof.
  intros pf t u c n line. unfold line.
  rewrite create_bookmark_html_eq. cbn [fst]. apply count_char_entry_line.
Qed.

(* ================================================================== *)
(** ** The letter Z in a created cell *)
(* ================================================================== *)

Lemma replace_Z_app (a b : string) :
  replace_Z (a ++ b) = (replace_Z a ++ replace_Z b)%string.
Proof.
  induction a as [|c a IH]; [reflexivity|].
  cbn [append replace_Z]. rewrite IH.
  destruct (Ascii.eqb c "Z"); [|reflexivity].
  symmetry. apply (append_assoc "+00:00").
Qed.

(** X14. A created cell that ends in the letter Z gives the timestamp of
    the same cell with the offset +00:00 in place of the Z, and reads the
    clock or not as that cell does. *)
Theorem trailing_Z_is_utc :
  forall (pf : Platform) (s : string) (n : nat),
    add_date_of pf (Some (s ++ "Z")%string) n =
    add_date_of pf (Some (s ++ "+00:00")%string) n.
Proof.
  intros pf s n. unfold add_date_of. rewrite !replace_Z_app.
  destruct s; reflexivity.
Qed.

(* ================================================================== *)
(** ** Counting the lines of the document *)
(* ================================================================== *)

Section TagCount.
Variables (c : ascii) (rest : string).

Let tag : string := String "<" (String c rest).

Lemma lt_then_found (a b : string) :
  forall st, lt_then c st (a ++ String "<" (String c b)) = true.
Proof.
  induction a as [|x a IH]; intro st; cbn.
  - rewrite Ascii.eqb_refl. apply orb_true_r.
  - rewrite IH. apply orb_true_r.
Qed.

Lemma lt_then_skip (x y : string) :
  lacks "<" x = true -> lt_then c false (x ++ y) = lt_then c false y.
Proof.
  induction x as [|a x IH]; cbn; [reflexivity|].
  intro H. apply andb_true_iff in H as [Ha Hx].
  apply negb_true_iff in Ha. rewrite Ha. apply IH, Hx.
Qed.

Lemma lt_then_free_piece (s p : string) :
  lt_then c false s = false -> In p (lines s) -> contains tag p = false.
Proof.
  intros Hs Hp. apply split_piece in Hp as [a [b ->]].
  destruct (contains tag p) eqn:E; [|reflexivity].
  apply contains_iff in E as [a' [b' ->]].
  replace (a ++ (a' ++ tag ++ b') ++ b)%string
    with ((a ++ a') ++ String "<" (String c (rest ++ b' ++ b)))%string in Hs.
  - rewrite lt_then_found in Hs. discriminate.
  - unfold tag. rewrite ?append_assoc. cbn. rewrite ?append_assoc. reflexivity.
Qed.

Lemma count_in_lt_then_free (s : string) :
  lt_then c false s = false -> count_in tag [s] = 0.
Proof.
  intro H. unfold count_in. cbn [flat_map]. rewrite app_nil_r, filter_none; [reflexivity|].
  intros p Hp. apply (lt_then_free_piece s p H Hp).
Qed.

Lemma split_app_lacks (sep : ascii) (pre r : string) :
  lacks sep pre = true ->
  exists p0 ps, split sep r = p0 :: ps /\ split sep (pre ++ r) = (pre ++ p0)%string :: ps.
Proof.
  induction pre as [|x pre IH]; cbn [lacks append].
  - intros _. destruct (split sep r) as [|p0 ps] eqn:E.
    + exfalso. exact (split_nonempty sep r E).
    + exists p0, ps. split; reflexivity.
  - intro H. apply andb_true_iff in H as [Hx Hpre]. apply negb_true_iff in Hx.
    destruct (IH Hpre) as [p0 [ps [Hr Hsplit]]].
    exists p0, ps. split; [exact Hr|].
    cbn [split]. rewrite Hx, Hsplit. reflexivity.
Qed.

(** A line that has the tag before its first line feed and no [<c]
    behind it counts once. *)
Lemma count_in_tagged_line (pre r : string) :
  lacks (ascii_of_nat 10) pre = true ->
  contains tag pre = true ->
  lt_then c false r = false ->
  count_in tag [(pre ++ r)%string] = 1.
Proof.
  intros Hnl Hpre Hr. unfold count_in. cbn [flat_map]. rewrite app_nil_r.
  unfold lines. destruct (split_app_lacks _ pre r Hnl) as [p0 [ps [Hsplit ->]]].
  cbn [filter].
  assert (H0 : contains tag (pre ++ p0) = true).
  { apply contains_iff in Hpre as [a [b ->]]. apply contains_iff.
    exists a, (b ++ p0)%string. rewrite !append_assoc. reflexivity. }
  rewrite H0, filter_none; [reflexivity|].
  intros p Hp. apply (lt_then_free_piece r p Hr).
  unfold lines. rewrite Hsplit. right. exact Hp.
Qed.

(** The lines of a rendered folder that have the tag, when every header
    line counts [h] times, every entry line [m] times and the list lines
    not at all. *)
Lemma generate_folder_html_tag_counts (h m : nat) :
  (forall level n,
      count_in tag [(indent_of level ++ "<DT><H3>" ++ escape n ++ "</H3>")%string] = h) ->
  (forall level, count_in tag [(indent_of level ++ "<DL><p>")%string] = 0) ->
  (forall level, count_in tag [(indent_of level ++ "</DL><p>")%string] = 0) ->
  (forall level b, is_entry_line b -> count_in tag [(indent_of level ++ b)%string] = m) ->
  forall f,
    all_marks is_entry_line f ->
    forall level,
      count_in tag (generate_folder_html f level) =
      h * rendered_folders f + m * List.length (all_bookmarks f).
Proof.
  intros Hh Ho Hc Hm.
  induction f as [n subs marks IH] using BookmarkFolder_induction.
  intros Hall level. inversion Hall as [? ? ? Hmarks Hsubs]; subst. clear Hall.
  rewrite generate_folder_html_eq, rendered_folders_eq, all_bookmarks_eq, length_app.
  cbv zeta. cbn [name subfolders bookmarks].
  set (inner := if String.eqb n "root" then level else S level).
  assert (Hmk : count_in tag (map (fun bookmark => (indent_of inner ++ bookmark)%string) marks)
                = m * List.length marks).
  { clear - Hmarks Hm. induction Hmarks as [|b marks Hb _ IHm]; [cbn; lia|].
    cbn [map List.length]. rewrite count_in_cons, IHm, (Hm inner b Hb). lia. }
  assert (Hkids : count_in tag
               (flat_map (fun subfolder => generate_folder_html subfolder inner)
                  (sorted (fun x => lower (name x)) (dict_values subs))) =
             h * list_sum (map (fun kv => rendered_folders (snd kv)) subs)
             + m * List.length (flat_map (fun kv => all_bookmarks (snd kv)) subs)).
  { rewrite count_in_flat_map. unfold sorted.
    rewrite <- (list_sum_Permutation _ _
                  (Permutation_map _ (sort_by_Permutation _ (dict_values subs)))).
    unfold dict_values. rewrite map_map.
    clear - IH Hsubs. induction subs as [|kv subs IHs]; [cbn; lia|].
    inversion IH as [|? ? Hkv IHrest]; subst.
    inversion Hsubs as [|? ? Hkv' Hrest]; subst.
    cbn [map flat_map]. rewrite length_app. unfold list_sum in *. cbn [fold_right].
    rewrite (Hkv Hkv' inner), (IHs IHrest Hrest). lia. }
  rewrite !count_in_app, Hmk, Hkids.
  destruct (String.eqb n "root").
  - unfold count_in. cbn [flat_map filter List.length]. lia.
  - rewrite (count_in_cons tag), Hh, Ho, Hc. lia.
Qed.
End TagCount.

Lemma add_rows_entry_lines (pf : Platform) (rs : list Row) :
  forall root n,
    all_marks is_entry_line root -> all_marks is_entry_line (fst (add_rows pf rs root n)).
Proof.
  induction rs as [|r rs IH]; intros root n H; cbn [add_rows]; [exact H|].
  unfold bind. rewrite create_bookmark_html_eq.
  apply IH. apply add_path_all_marks; [|exact H].
  eexists. eexists. eexists. reflexivity.
Qed.

Lemma create_folder_structure_entry_lines (pf : Platform) (rs : list Row) (n : nat) :
  all_marks is_entry_line (fst (create_folder_structure pf rs n)).
Proof.
  unfold create_folder_structure. apply add_rows_entry_lines.
  constructor; constructor.
Qed.

Lemma count_lines_of_document (tag : string) (root : BookmarkFolder) :
  count_lines_with tag (generate_bookmarks_html root) =
  count_in tag [header] + count_in tag (generate_folder_html root 0)
  + count_in tag [footer].
Proof.
  unfold count_lines_with, generate_bookmarks_html. cbv zeta. cbn [app].
  rewrite lines_join.
  change (List.length (filter (contains tag)
            (flat_map lines (header :: generate_folder_html root 0 ++ [footer]))))
    with (count_in tag (header :: generate_folder_html root 0 ++ [footer])).
  rewrite count_in_cons, count_in_app. lia.
Qed.

(** The lines with the opening of an anchor: entry lines only, each once. *)
Lemma anchor_counts (f : BookmarkFolder) :
  all_marks is_entry_line f ->
  forall level,
    count_in "<A HREF=" (generate_folder_html f level) = List.length (all_bookmarks f).
Proof.
  intros Hf level.
  rewrite (generate_folder_html_tag_counts "A" " HREF=" 0 1); try exact Hf; try lia.
  - intros lv n. apply count_in_lt_then_free.
    rewrite lt_then_skip by (apply lacks_indent; reflexivity). cbn.
    rewrite lt_then_skip by (apply lacks_escape; cbn; tauto). reflexivity.
  - intro lv. apply count_in_lt_then_free.
    rewrite lt_then_skip by (apply lacks_indent; reflexivity). reflexivity.
  - intro lv. apply count_in_lt_then_free.
    rewrite lt_then_skip by (apply lacks_indent; reflexivity). reflexivity.
  - intros lv b [u [d [t ->]]]. unfold entry_line.
    change (indent_of lv ++ "<DT><A HREF=" ++ q ++ escape u ++ q ++ " ADD_DATE=" ++ q
              ++ str_of_int d ++ q ++ ">" ++ escape t ++ "</A>")%string
      with (indent_of lv ++ ("<DT><A HREF=" ++ q) ++ (escape u ++ q ++ " ADD_DATE=" ++ q
              ++ str_of_int d ++ q ++ ">" ++ escape t ++ "</A>"))%string.
    rewrite <- append_assoc. apply count_in_tagged_line.
    + rewrite lacks_app, lacks_indent; reflexivity.
    + rewrite contains_skip by (apply lacks_indent; reflexivity). reflexivity.
    + rewrite lt_then_skip by (apply lacks_escape; cbn; tauto). cbn.
      rewrite lt_then_skip by (apply lacks_str_of_int; reflexivity). cbn.
      rewrite lt_then_skip by (apply lacks_escape; cbn; tauto). reflexivity.
Qed.

(** The lines with the opening of a folder title: header lines only, each
    once. *)
Lemma title_counts (f : BookmarkFolder) :
  all_marks is_entry_line f ->
  forall level, count_in "<H3>" (generate_folder_html f level) = rendered_folders f.
Proof.
  intros Hf level.
  rewrite (generate_folder_html_tag_counts "H" "3>" 1 0); try exact Hf; try lia.
  - intros lv n.
    change (indent_of lv ++ "<DT><H3>" ++ escape n ++ "</H3>")%string
      with (indent_of lv ++ "<DT><H3>" ++ (escape n ++ "</H3>"))%string.
    rewrite <- append_assoc. apply count_in_tagged_line.
    + rewrite lacks_app, lacks_indent; reflexivity.
    + rewrite contains_skip by (apply lacks_indent; reflexivity). reflexivity.
    + rewrite lt_then_skip by (apply lacks_escape; cbn; tauto). reflexivity.
  - intro lv. apply count_in_lt_then_free.
    rewrite lt_then_skip by (apply lacks_indent; reflexivity). reflexivity.
  - intro lv. apply count_in_lt_then_free.
    rewrite lt_then_skip by (apply lacks_indent; reflexivity). reflexivity.
  - intros lv b [u [d [t ->]]]. apply count_in_lt_then_free.
    rewrite lt_then_skip by (apply lacks_indent; reflexivity).
    unfold entry_line. cbn.
    rewrite lt_then_skip by (apply lacks_escape; cbn; tauto). cbn.
    rewrite lt_then_skip by (apply lacks_str_of_int; reflexivity). cbn.
    rewrite lt_then_skip by (apply lacks_escape; cbn; tauto). reflexivity.
Qed.

Lemma document_has_one_entry_line_per_row_aux (pf : Platform) (table : list Row) (n : nat) :
  count_lines_with "<A HREF="
    (generate_bookmarks_html (fst (create_folder_structure pf table n)))
  = List.length table.
Proof.
  rewrite count_lines_of_document.
  rewrite (anchor_counts _ (create_folder_structure_entry_lines pf table n)).
  change (count_in "<A HREF=" [header]) with 0.
  change (count_in "<A HREF=" [footer]) with 0.
  assert (H : Permutation (all_bookmarks (fst (create_folder_structure pf table n)))
                (map snd (row_items pf (sort_values_folder table) n))).
  { unfold create_folder_structure. rewrite add_rows_row_items.
    apply (all_bookmarks_add_items _ (new_folder "root")). }
  rewrite (Permutation_length H), length_map, row_items_length.
  unfold sort_values_folder.
  rewrite <- (Permutation_length (sort_by_Permutation _ table)). lia.
Qed.

(** X15. The document of any table has exactly one line with the opening
    of an anchor for every row of the table, whatever line feeds and
    markup characters the titles and urls have; the fixed header and
    footer and the folder lines have none. *)
Theorem document_has_one_entry_line_per_row :
  forall (pf : Platform) (table : list Row) (n : nat),
    let doc := generate_bookmarks_html (fst (create_folder_structure pf table n)) in
    count_lines_with "<A HREF=" doc = List.length table /\
    count_lines_with "<A HREF=" doc =
      List.length (all_bookmarks (fst (create_folder_structure pf table n))).
Proof.
  intros pf table n doc. unfold doc. split.
  - apply document_has_one_entry_line_per_row_aux.
  - rewrite count_lines_of_document.
    rewrite (anchor_counts _ (create_folder_structure_entry_lines pf table n)).
    change (count_in "<A HREF=" [header]) with 0.
    change (count_in "<A HREF=" [footer]) with 0. lia.
Qed.

Lemma filter_length_split {A : Type} (f : A -> bool) (l : list A) :
  List.length (filter f l) + List.length (filter (fun x => negb (f x)) l) = List.length l.
Proof.
  induction l as [|x l IH]; [reflexivity|].
  cbn [filter]. destruct (f x); cbn [negb List.length]; lia.
Qed.

(** X16. The document of any table has one line with a folder title for
    every folder that gets a header. Together with the folders below the
    root that are named root, which get none, these are the folders the
    run counts. *)
Theorem title_lines_and_folder_count :
  forall (pf : Platform) (table : list Row) (n : nat),
    let root := fst (create_folder_structure pf table n) in
    count_lines_with "<H3>" (generate_bookmarks_html root)
    + List.length (filter (fun f => String.eqb (name f) "root") (non_root_folders root))
    = count_folders root.
Proof.
  intros pf table n. cbv zeta.
  pose proof (create_folder_structure_entry_lines pf table n) as Hlines.
  assert (Hname : name (fst (create_folder_structure pf table n)) = "root").
  { unfold create_folder_structure. apply name_add_rows. }
  revert Hlines Hname.
  generalize (fst (create_folder_structure pf table n)) as root.
  intros root Hlines Hname.
  rewrite count_lines_of_document, (title_counts _ Hlines).
  change (count_in "<H3>" [header]) with 0.
  change (count_in "<H3>" [footer]) with 0.
  pose proof (count_folders_all_folders root) as Hcount.
  unfold rendered_folders, non_root_folders.
  destruct root as [rn subs marks]. cbn [name] in Hname. subst rn.
  pose proof (filter_length_split (fun f => String.eqb (name f) "root")
                (flat_map (fun kv => all_folders (snd kv)) subs)) as Hsplit.
  cbn [all_folders filter name tl List.length] in *.
  change (negb (String.eqb "root" "root")) with false.
  cbn beta in Hsplit. lia.
Qed.

(* ================================================================== *)
(** ** A run that does not fail *)
(* ================================================================== *)




(* ================================================================== *)
(** ** The markup characters of the whole document *)
(* ================================================================== *)

Lemma list_sum_cons (a : nat) (l : list nat) : list_sum (a :: l) = a + list_sum l.
Proof. reflexivity. Qed.

Lemma count_char_join (c : ascii) (sep : string) (l : list string) :
  lacks c sep = true ->
  count_char c (join sep l) = list_sum (map (count_char c) l).
Proof.
  intro Hsep. induction l as [|p l IH]; [reflexivity|].
  destruct l as [|p' l'].
  - cbn [join map]. rewrite list_sum_cons. cbn. lia.
  - change (join sep (p :: p' :: l')) with (p ++ sep ++ join sep (p' :: l'))%string.
    rewrite !count_char_app, IH, (lacks_count_char c sep Hsep).
    cbn [map]. rewrite !list_sum_cons. lia.
Qed.

(** The sum of a measure over the lines of a rendered folder, when the
    three lines of a folder with a header measure [h] together and every
    entry line measures [m]. *)
Lemma generate_folder_html_measure (mu : string -> nat) (h m : nat) :
  (forall level n,
      mu (indent_of level ++ "<DT><H3>" ++ escape n ++ "</H3>")%string
      + mu (indent_of level ++ "<DL><p>")%string
      + mu (indent_of level ++ "</DL><p>")%string = h) ->
  (forall level b, is_entry_line b -> mu (indent_of level ++ b)%string = m) ->
  forall f,
    all_marks is_entry_line f ->
    forall level,
      list_sum (map mu (generate_folder_html f level)) =
      h * rendered_folders f + m * List.length (all_bookmarks f).
Proof.
  intros Hh Hm.
  induction f as [n subs marks IH] using BookmarkFolder_induction.
  intros Hall level. inversion Hall as [? ? ? Hmarks Hsubs]; subst. clear Hall.
  rewrite generate_folder_html_eq, rendered_folders_eq, all_bookmarks_eq, length_app.
  cbv zeta. cbn [name subfolders bookmarks].
  set (inner := if String.eqb n "root" then level else S level).
  assert (Hmk : list_sum (map mu (map (fun bookmark => (indent_of inner ++ bookmark)%string)
                                    marks)) = m * List.length marks).
  { clear - Hmarks Hm. induction Hmarks as [|b marks Hb _ IHm]; [cbn; lia|].
    cbn [map List.length]. rewrite list_sum_cons, IHm, (Hm inner b Hb). lia. }
  assert (Hkids : list_sum (map mu
               (flat_map (fun subfolder => generate_folder_html subfolder inner)
                  (sorted (fun x => lower (name x)) (dict_values subs)))) =
             h * list_sum (map (fun kv => rendered_folders (snd kv)) subs)
             + m * List.length (flat_map (fun kv => all_bookmarks (snd kv)) subs)).
  { assert (Hflat : forall l : list BookmarkFolder,
               list_sum (map mu (flat_map (fun sub => generate_folder_html sub inner) l)) =
               list_sum (map (fun sub => list_sum (map mu (generate_folder_html sub inner))) l)).
    { induction l as [|x l IHl]; [reflexivity|].
      cbn [flat_map map]. rewrite map_app, list_sum_app, list_sum_cons, IHl. reflexivity. }
    rewrite Hflat. unfold sorted.
    rewrite <- (list_sum_Permutation _ _
                  (Permutation_map _ (sort_by_Permutation _ (dict_values subs)))).
    unfold dict_values. rewrite map_map.
    clear - IH Hsubs. induction subs as [|kv subs IHs]; [cbn; lia|].
    inversion IH as [|? ? Hkv IHrest]; subst.
    inversion Hsubs as [|? ? Hkv' Hrest]; subst.
    cbn [map flat_map]. rewrite length_app, !list_sum_cons.
    rewrite (Hkv Hkv' inner), (IHs IHrest Hrest). lia. }
  rewrite !map_app, !list_sum_app, Hmk, Hkids.
  destruct (String.eqb n "root").
  - cbn [map]. cbn [list_sum fold_right]. lia.
  - cbn [map]. rewrite !list_sum_cons. cbn [list_sum fold_right].
    specialize (Hh level n). replace (inner - 1) with level by (unfold inner; lia).
    lia.
Qed.

Lemma count_char_indented (c : ascii) (level : nat) (s : string) :
  Ascii.eqb " " c = false ->
  count_char c (indent_of level ++ s) = count_char c s.
Proof.
  intro H. rewrite count_char_app, (lacks_count_char c (indent_of level)); [reflexivity|].
  apply lacks_indent, H.
Qed.

(** X18. How many angle brackets and double quotes the document of a
    table has is settled by the number of its rows and of its folders with
    a header: eleven of each bracket for the fixed header and footer,
    seven for every such folder, three for every row, and four double
    quotes for the header and for every row. No title, url or folder name
    adds one. *)
Theorem document_markup_is_fixed_by_the_counts :
  forall (pf : Platform) (table : list Row) (n : nat),
    let root := fst (create_folder_structure pf table n) in
    let doc := generate_bookmarks_html root in
    count_char "<" doc = 11 + 7 * rendered_folders root + 3 * List.length table /\
    count_char ">" doc = 11 + 7 * rendered_folders root + 3 * List.length table /\
    count_char dquote doc = 4 + 4 * List.length table.
Proof.
  intros pf table n root doc.
  pose proof (create_folder_structure_entry_lines pf table n) as Hlines.
  fold root in Hlines.
  assert (Hlen : List.length (all_bookmarks root) = List.length table).
  { assert (H : Permutation (all_bookmarks root)
                  (map snd (row_items pf (sort_values_folder table) n))).
    { unfold root, create_folder_structure. rewrite add_rows_row_items.
      apply (all_bookmarks_add_items _ (new_folder "root")). }
    rewrite (Permutation_length H), length_map, row_items_length.
    unfold sort_values_folder.
    symmetry. apply Permutation_length, sort_by_Permutation. }
  assert (Hdoc : forall c, lacks c nl = true ->
             count_char c doc =
             count_char c header
             + list_sum (map (count_char c) (generate_folder_html root 0))
             + count_char c footer).
  { intros c Hc. unfold doc, generate_bookmarks_html. cbv zeta.
    rewrite (count_char_join c nl _ Hc). cbn [app map].
    rewrite list_sum_cons, map_app, list_sum_app. cbn [map].
    rewrite list_sum_cons. cbn [list_sum fold_right]. lia. }
  split; [|split].
  - rewrite (Hdoc "<"%char eq_refl).
    rewrite (generate_folder_html_measure (count_char "<") 7 3 ); try exact Hlines.
    + rewrite Hlen. change (count_char "<" header) with 9.
      change (count_char "<" footer) with 2. lia.
    + intros level nm. rewrite !(count_char_indented _ level) by reflexivity.
      cbn [append count_char]. rewrite count_char_app.
      rewrite (lacks_count_char _ (escape nm)) by (apply lacks_escape; cbn; tauto).
      reflexivity.
    + intros level b [u [d [t ->]]]. rewrite (count_char_indented _ level) by reflexivity.
      exact (proj1 (count_char_entry_line u t d)).
  - rewrite (Hdoc ">"%char eq_refl).
    rewrite (generate_folder_html_measure (count_char ">") 7 3 ); try exact Hlines.
    + rewrite Hlen. change (count_char ">" header) with 9.
      change (count_char ">" footer) with 2. lia.
    + intros level nm. rewrite !(count_char_indented _ level) by reflexivity.
      cbn [append count_char]. rewrite count_char_app.
      rewrite (lacks_count_char _ (escape nm)) by (apply lacks_escape; cbn; tauto).
      reflexivity.
    + intros level b [u [d [t ->]]]. rewrite (count_char_indented _ level) by reflexivity.
      exact (proj1 (proj2 (count_char_entry_line u t d))).
  - rewrite (Hdoc dquote eq_refl).
    rewrite (generate_folder_html_measure (count_char dquote) 0 4); try exact Hlines.
    + rewrite Hlen. change (count_char dquote header) with 4.
      change (count_char dquote footer) with 0. lia.
    + intros level nm. rewrite !(count_char_indented _ level) by reflexivity.
      cbn [append count_char]. rewrite count_char_app.
      rewrite (lacks_count_char _ (escape nm)) by (apply lacks_escape; cbn; tauto).
      reflexivity.
    + intros level b [u [d [t ->]]]. rewrite (count_char_indented _ level) by reflexivity.
      exact (proj2 (proj2 (count_char_entry_line u t d))).
Qed.
